(** * Behavioural-cloning trainer (model.py): a shallow embedding

    The training script parses its command line, loads and splits the
    driving log, builds the network and runs the framework's fit loop with a
    checkpoint callback.  The embedding follows [model.py] function by
    function.  What the script imports from other places is kept apart:

    - Python built-ins and libraries ([int], [float], [str.lower], argparse,
      pandas, scikit-learn, Keras) are modelled on the fragment the script
      drives, each with a comment saying what is left out;
    - the helpers imported from [utils] ([balanceData], [batch_generator],
      [INPUT_SHAPE]) are not part of the sources at hand; they are either
      passed in as parameters or modelled from the written specification,
      and marked as such. *)

From Stdlib Require Import ZArith QArith List String Ascii Bool Lia Permutation Arith.
Import ListNotations.

Local Open Scope string_scope.

(** ** Python strings and the built-in conversions *)

Module PyStr.

(** [str.lower] on one character.  Strings are byte strings here; only the
    letters [A]..[Z] change.  (Python lower-cases letters of other scripts
    too; none of them maps to a letter or digit of the words [s2b] accepts.) *)
Definition lower_char (c : ascii) : ascii :=
  let n := nat_of_ascii c in
  if (65 <=? n)%nat && (n <=? 90)%nat then ascii_of_nat (n + 32) else c.

Fixpoint lower (s : string) : string :=
  match s with
  | EmptyString => EmptyString
  | String c r => String (lower_char c) (lower r)
  end.

(** White space as [str.strip], [int] and [float] see it (ASCII range). *)
Definition is_space (c : ascii) : bool :=
  let n := nat_of_ascii c in
  ((9 <=? n)%nat && (n <=? 13)%nat) || ((28 <=? n)%nat && (n <=? 32)%nat).

Fixpoint lstrip (l : list ascii) : list ascii :=
  match l with
  | c :: r => if is_space c then lstrip r else l
  | [] => []
  end.

Definition strip (l : list ascii) : list ascii :=
  rev (lstrip (rev (lstrip l))).

Definition digit_of (c : ascii) : option Z :=
  let n := nat_of_ascii c in
  if (48 <=? n)%nat && (n <=? 57)%nat then Some (Z.of_nat (n - 48)) else None.

Definition is_underscore (c : ascii) : bool := (nat_of_ascii c =? 95)%nat.

(** A run [digit (["_"] digit)*] read to the end of [l]: its value and the
    number of digits.  [after_digit] says whether the previous character was
    a digit, the only place where an underscore may stand. *)
Fixpoint digits_from (acc : Z) (count : nat) (after_digit : bool)
  (l : list ascii) : option (Z * nat) :=
  match l with
  | [] => if after_digit then Some (acc, count) else None
  | c :: r =>
      match digit_of c with
      | Some d => digits_from (10 * acc + d) (S count) true r
      | None =>
          if is_underscore c && after_digit
          then digits_from acc count false r
          else None
      end
  end.

Definition digitpart (l : list ascii) : option (Z * nat) :=
  digits_from 0 0 false l.

(** An optional sign: [(negative, rest)]. *)
Definition split_sign (l : list ascii) : bool * list ascii :=
  match l with
  | c :: r =>
      if (nat_of_ascii c =? 45)%nat then (true, r)
      else if (nat_of_ascii c =? 43)%nat then (false, r)
      else (false, l)
  | [] => (false, [])
  end.

Definition apply_sign (negative : bool) (z : Z) : Z :=
  if negative then (- z)%Z else z.

(** [int(s)] in base ten; [None] stands for the [ValueError]. *)
Definition py_int (s : string) : option Z :=
  let '(neg, body) := split_sign (strip (list_ascii_of_string s)) in
  match digitpart body with
  | Some (v, _) => Some (apply_sign neg v)
  | None => None
  end.

(** A Python float.  A finite value is kept as the exact decimal it was
    written as, [m * 10^e]; rounding to binary64 is not modelled. *)
Inductive pyfloat : Type :=
| FDec (m e : Z)
| FInf (negative : bool)
| FNan.

(** [l] cut at the first character satisfying [p]: the part before it and,
    when there is one, the part after it. *)
Fixpoint cut_at (p : ascii -> bool) (l : list ascii)
  : list ascii * option (list ascii) :=
  match l with
  | [] => ([], None)
  | c :: r =>
      if p c then ([], Some r)
      else let '(a, b) := cut_at p r in (c :: a, b)
  end.

Definition is_dot (c : ascii) : bool := (nat_of_ascii c =? 46)%nat.
Definition is_e (c : ascii) : bool := (nat_of_ascii c =? 101)%nat.

(** The mantissa [digits], [digits.], [.digits] or [digits.digits]: its
    digits read as one integer, and the number of digits after the point. *)
Definition mantissa (l : list ascii) : option (Z * nat) :=
  match cut_at is_dot l with
  | (ip, None) =>
      match digitpart ip with Some (v, _) => Some (v, 0%nat) | None => None end
  | ([], Some []) => None
  | (ip, Some []) =>
      match digitpart ip with Some (v, _) => Some (v, 0%nat) | None => None end
  | ([], Some fp) => digits_from 0 0 false fp
  | (ip, Some fp) =>
      match digitpart ip with
      | Some (v, _) => digits_from v 0 false fp
      | None => None
      end
  end.

Definition exponent (l : list ascii) : option Z :=
  let '(neg, body) := split_sign l in
  match digitpart body with
  | Some (v, _) => Some (apply_sign neg v)
  | None => None
  end.

(** [float(s)]; [None] stands for the [ValueError]. *)
Definition py_float (s : string) : option pyfloat :=
  let '(neg, body) :=
    split_sign (strip (list_ascii_of_string (lower s))) in
  let word := string_of_list_ascii body in
  if (word =? "inf") || (word =? "infinity") then Some (FInf neg)
  else if word =? "nan" then Some FNan
  else
    match cut_at is_e body with
    | (mp, None) =>
        match mantissa mp with
        | Some (m, k) => Some (FDec (apply_sign neg m) (- Z.of_nat k))
        | None => None
        end
    | (mp, Some ep) =>
        match mantissa mp, exponent ep with
        | Some (m, k), Some x => Some (FDec (apply_sign neg m) (x - Z.of_nat k))
        | _, _ => None
        end
    end.

(** The last character of a string. *)
Fixpoint last_char (s : string) : option ascii :=
  match s with
  | EmptyString => None
  | String c EmptyString => Some c
  | String _ r => last_char r
  end.

End PyStr.

(** ** The command line: [s2b] and [main]'s argument table *)

Module Cli.
Import PyStr.

(** [s2b]: converts a string to a boolean value. *)
Definition s2b (s : string) : bool :=
  let s := lower s in
  (s =? "true") || (s =? "yes") || (s =? "y") || (s =? "1").

(** The options [main] registers with [add_argument]. *)
Inductive flag : Type :=
| Opt_d | Opt_t | Opt_k | Opt_n | Opt_s | Opt_b | Opt_o | Opt_l.

(** The namespace [parse_args] returns, one field per [dest]. *)
Record Args : Type := mkArgs {
  data_dir : string;
  test_size : pyfloat;
  keep_prob : pyfloat;
  nb_epoch : Z;
  samples_per_epoch : Z;
  batch_size : Z;
  save_best_only : bool;
  learning_rate : pyfloat
}.

(** What a [type=] callable makes of an option's value: the converted value,
    or an exception ([ValueError], [TypeError], [ArgumentTypeError]) that
    argparse turns into a usage error. *)
Inductive converted (A : Type) : Type :=
| Value (a : A)
| Raises.
Arguments Value {A} a.
Arguments Raises {A}.

Definition of_builtin {A : Type} (r : option A) : converted A :=
  match r with Some a => Value a | None => Raises end.

Definition type_str (s : string) : converted string := Value s.
Definition type_int (s : string) : converted Z := of_builtin (py_int s).
Definition type_float (s : string) : converted pyfloat := of_builtin (py_float s).
(** [type=s2b]: the callable has no [raise] and [str.lower] has none on a
    string, so every value is converted. *)
Definition type_s2b (s : string) : converted bool := Value (s2b s).

(** The defaults of the argument table.  The default of [-o] is the string
    ['true'], which argparse passes through the option's [type]. *)
Definition defaults : Args :=
  {| data_dir := "data";
     test_size := FDec 2 (-1);
     keep_prob := FDec 25 (-2);
     nb_epoch := 1;
     samples_per_epoch := 10;
     batch_size := 40;
     save_best_only := s2b "true";
     learning_rate := FDec 10 (-5) |}.

(** Whether the [type] registered for option [f] converts the value [v]. *)
Definition convertible (f : flag) (v : string) : bool :=
  match f with
  | Opt_d => match type_str v with Value _ => true | Raises => false end
  | Opt_t | Opt_k | Opt_l =>
      match type_float v with Value _ => true | Raises => false end
  | Opt_n | Opt_s | Opt_b =>
      match type_int v with Value _ => true | Raises => false end
  | Opt_o => match type_s2b v with Value _ => true | Raises => false end
  end.

(** The outcome of [parser.parse_args()]: the namespace, or argparse's
    [error]: the usage message and [argument <flag>: invalid ... value:
    <value>] on standard error, then [sys.exit(2)]. *)
Inductive parsed : Type :=
| Namespace (a : Args)
| UsageError (f : flag) (value : string).

Definition exit_status (p : parsed) : Z :=
  match p with Namespace _ => 0 | UsageError _ _ => 2 end%Z.

(** One occurrence [<flag> <value>] stored into the namespace. *)
Definition set_option (a : Args) (f : flag) (v : string) : converted Args :=
  match f with
  | Opt_d =>
      match type_str v with
      | Value x => Value (mkArgs x (test_size a) (keep_prob a) (nb_epoch a)
                            (samples_per_epoch a) (batch_size a)
                            (save_best_only a) (learning_rate a))
      | Raises => Raises
      end
  | Opt_t =>
      match type_float v with
      | Value x => Value (mkArgs (data_dir a) x (keep_prob a) (nb_epoch a)
                            (samples_per_epoch a) (batch_size a)
                            (save_best_only a) (learning_rate a))
      | Raises => Raises
      end
  | Opt_k =>
      match type_float v with
      | Value x => Value (mkArgs (data_dir a) (test_size a) x (nb_epoch a)
                            (samples_per_epoch a) (batch_size a)
                            (save_best_only a) (learning_rate a))
      | Raises => Raises
      end
  | Opt_n =>
      match type_int v with
      | Value x => Value (mkArgs (data_dir a) (test_size a) (keep_prob a) x
                            (samples_per_epoch a) (batch_size a)
                            (save_best_only a) (learning_rate a))
      | Raises => Raises
      end
  | Opt_s =>
      match type_int v with
      | Value x => Value (mkArgs (data_dir a) (test_size a) (keep_prob a)
                            (nb_epoch a) x (batch_size a)
                            (save_best_only a) (learning_rate a))
      | Raises => Raises
      end
  | Opt_b =>
      match type_int v with
      | Value x => Value (mkArgs (data_dir a) (test_size a) (keep_prob a)
                            (nb_epoch a) (samples_per_epoch a) x
                            (save_best_only a) (learning_rate a))
      | Raises => Raises
      end
  | Opt_o =>
      match type_s2b v with
      | Value x => Value (mkArgs (data_dir a) (test_size a) (keep_prob a)
                            (nb_epoch a) (samples_per_epoch a) (batch_size a)
                            x (learning_rate a))
      | Raises => Raises
      end
  | Opt_l =>
      match type_float v with
      | Value x => Value (mkArgs (data_dir a) (test_size a) (keep_prob a)
                            (nb_epoch a) (samples_per_epoch a) (batch_size a)
                            (save_best_only a) x)
      | Raises => Raises
      end
  end.

(** The command line as argparse has split it: the occurrences of the
    registered options, each with the one value it takes, in order.  (Shapes
    argparse refuses before any conversion, such as an unknown option or a
    missing value, and [-h], are outside this type.) *)
Definition command_line : Type := list (flag * string).

Fixpoint parse_from (a : Args) (cl : command_line) : parsed :=
  match cl with
  | [] => Namespace a
  | (f, v) :: rest =>
      match set_option a f v with
      | Value a' => parse_from a' rest
      | Raises => UsageError f v
      end
  end.

Definition parse_args (cl : command_line) : parsed := parse_from defaults cl.

(** A value stored in the namespace, and the [dest] of an option read as
    such a value. *)
Inductive value : Type :=
| VStr (s : string)
| VFloat (x : pyfloat)
| VInt (z : Z)
| VBool (b : bool).

Definition get_dest (f : flag) (a : Args) : value :=
  match f with
  | Opt_d => VStr (data_dir a)
  | Opt_t => VFloat (test_size a)
  | Opt_k => VFloat (keep_prob a)
  | Opt_n => VInt (nb_epoch a)
  | Opt_s => VInt (samples_per_epoch a)
  | Opt_b => VInt (batch_size a)
  | Opt_o => VBool (save_best_only a)
  | Opt_l => VFloat (learning_rate a)
  end.

(** The [type] registered for option [f] applied to [v]. *)
Definition convert (f : flag) (v : string) : converted value :=
  match f with
  | Opt_d =>
      match type_str v with Value x => Value (VStr x) | Raises => Raises end
  | Opt_t | Opt_k | Opt_l =>
      match type_float v with Value x => Value (VFloat x) | Raises => Raises end
  | Opt_n | Opt_s | Opt_b =>
      match type_int v with Value x => Value (VInt x) | Raises => Raises end
  | Opt_o =>
      match type_s2b v with Value x => Value (VBool x) | Raises => Raises end
  end.

End Cli.

(** ** Exceptions and results *)

Module Py.

Inductive exn : Type :=
| FileNotFoundError (path : string)
| ParserError (line : nat)
| ValueError (what : string)
| IndexError
| HelperError (what : string).

Inductive result (A : Type) : Type :=
| Ok (a : A)
| Raise (e : exn).
Arguments Ok {A} a.
Arguments Raise {A} e.

Definition bind {A B : Type} (r : result A) (k : A -> result B) : result B :=
  match r with Ok a => k a | Raise e => Raise e end.

Definition is_ok {A : Type} (r : result A) : bool :=
  match r with Ok _ => true | Raise _ => false end.

(** What a call returned, when it did not raise. *)
Definition returned {A : Type} (r : result A) : option A :=
  match r with Ok a => Some a | Raise _ => None end.

End Py.

Notation "x <- r ;; k" := (Py.bind r (fun x => k))
  (at level 61, r at next level, right associativity).
Notation "' p <- r ;; k" := (Py.bind r (fun p => k))
  (at level 61, p pattern, r at next level, right associativity).

(** ** The driving log and [load_data] *)

Module Data.
Import PyStr Cli Py.

(** A cell of the frame: the text of the field, or [None] for NaN.  (pandas
    also converts all-numeric columns to floats; the cells keep the text and
    leave the conversion to whoever reads them.) *)
Definition cell : Type := option string.

(** [columns]: the seven names handed to [read_csv]. *)
Record row : Type := mkRow {
  center : cell; left : cell; right : cell;
  steering : cell; throttle : cell; brake : cell; speed : cell
}.

Definition DataFrame : Type := list row.

(** A file as the CSV reader sees it: its records, each a list of fields. *)
Definition csv_file : Type := list (list string).
Definition file_system : Type := string -> option csv_file.

Definition field (fields : list string) (i : nat) : cell :=
  match nth_error fields i with
  | Some "" => None
  | Some s => Some s
  | None => None
  end.

(** [pd.read_csv(path, names=columns)] on one record.  A record with fewer
    than seven fields is kept and its missing fields are NaN; an empty field
    is NaN; an empty record is a blank line and is skipped; a record with
    more than seven fields is a tokenizing error.  (Where the first record
    is the long one pandas reads the extra leading fields as an index; that
    case is not modelled.) *)
Fixpoint read_records (line : nat) (records : csv_file) : result DataFrame :=
  match records with
  | [] => Ok []
  | fields :: rest =>
      if (7 <? List.length fields)%nat then Raise (ParserError line)
      else
        df <- read_records (S line) rest ;;
        match fields with
        | [] => Ok df
        | _ => Ok (mkRow (field fields 0) (field fields 1) (field fields 2)
                         (field fields 3) (field fields 4) (field fields 5)
                         (field fields 6) :: df)
        end
  end.

Definition read_csv (fs : file_system) (path : string) : result DataFrame :=
  match fs path with
  | None => Raise (FileNotFoundError path)
  | Some records => read_records 1 records
  end.

Fixpoint ends_with_slash (s : string) : bool :=
  match s with
  | EmptyString => false
  | String c EmptyString => (nat_of_ascii c =? 47)%nat
  | String _ r => ends_with_slash r
  end.

(** [os.path.join(a, b)] for a relative [b]. *)
Definition path_join (a b : string) : string :=
  if (a =? "") || ends_with_slash a then a ++ b else a ++ "/" ++ b.

(** What [model.py] imports and the sources at hand do not contain: the
    global NumPy generator ([np.random.seed] sets its state), the helper
    [balanceData] of [utils], which may draw from that generator and may
    raise, and the permutation [RandomState(0).permutation(n)] that
    [train_test_split] shuffles with when [random_state=0]. *)
Record Imports : Type := mkImports {
  rng_state : Type;
  np_random_seed : Z -> rng_state;
  balanceData : DataFrame -> bool -> rng_state -> result (DataFrame * rng_state);
  permutation0 : nat -> list nat
}.

(** [a[idx]]: the rows of [a] at the indexes [idx]. *)
Fixpoint take_rows {A : Type} (a : list A) (idx : list nat) : result (list A) :=
  match idx with
  | [] => Ok []
  | i :: rest =>
      match nth_error a i with
      | Some x => r <- take_rows a rest ;; Ok (x :: r)
      | None => Raise IndexError
      end
  end.

(** [ceil(test_size * n)] for a test size strictly between 0 and 1, else the
    [ValueError] of scikit-learn's validation.  The product is exact here;
    Python rounds it to binary64 first. *)
Definition n_test_of (test_size : pyfloat) (n : nat) : result nat :=
  match test_size with
  | FDec m e =>
      if (m <=? 0)%Z then Raise (ValueError "test_size")
      else if (0 <=? e)%Z then Raise (ValueError "test_size")
      else
        let d := (10 ^ (- e))%Z in
        if (d <=? m)%Z then Raise (ValueError "test_size")
        else Ok (Z.to_nat (- ((- (m * Z.of_nat n)) / d))%Z)
  | FInf _ => Raise (ValueError "test_size")
  | FNan => Raise (ValueError "test_size")
  end.

(** [train_test_split(X, y, test_size=..., random_state=0)]: the first
    [n_test] indexes of the permutation are the test set, the next
    [n - n_test] the training set; an empty training set is refused.  The
    result is [X_train, X_test, y_train, y_test]. *)
Definition train_test_split {A B : Type} (L : Imports) (X : list A) (y : list B)
  (test_size : pyfloat)
  : result (list A * list A * list B * list B) :=
  let n := List.length X in
  n_test <- n_test_of test_size n ;;
  let n_train := (n - n_test)%nat in
  if (n_train =? 0)%nat then Raise (ValueError "train set will be empty")
  else
    let p := permutation0 L n in
    let test := firstn n_test p in
    let train := firstn n_train (skipn n_test p) in
    X_train <- take_rows X train ;;
    X_test <- take_rows X test ;;
    y_train <- take_rows y train ;;
    y_test <- take_rows y test ;;
    Ok (X_train, X_test, y_train, y_test).

(** [os.path.join(args.data_dir, 'driving_log.csv')]. *)
Definition log_path (args : Args) : string :=
  path_join (data_dir args) "driving_log.csv".

Definition paths : Type := cell * cell * cell.

(** What [load_data] returns: [X_train, X_valid, y_train, y_valid]. *)
Definition split : Type := list paths * list paths * list cell * list cell.

(** [load_data]: load training data and split it into training and
    validation set.  The global generator is threaded through the call of
    [balanceData]. *)
Definition load_data (L : Imports) (fs : file_system) (args : Args)
  (g : rng_state L) : result (split * rng_state L) :=
  data_df <- read_csv fs (log_path args) ;;
  '(data_df, g) <- balanceData L data_df false g ;;
  let X := map (fun r => (center r, left r, right r)) data_df in
  let y := map steering data_df in
  s <- train_test_split L X y (test_size args) ;;
  Ok (s, g).

End Data.

(** ** [build_model], [train_model] and [main] *)

Module Trainer.
Import PyStr Cli Py Data.

(** The arguments of one call
    [batch_generator(data_dir, image_paths, steering_angles, batch_size,
    is_training)]: the call takes no generator, seed or stream of its own. *)
Record generator_call : Type := mkGenerator {
  g_data_dir : string;
  g_image_paths : list paths;
  g_steering_angles : list cell;
  g_batch_size : Z;
  g_is_training : bool
}.

(** [ModelCheckpoint(filepath, monitor=, verbose=0, save_best_only=, mode=)]. *)
Record ModelCheckpoint : Type := mkCheckpoint {
  filepath : string;
  monitor : string;
  cp_save_best_only : bool;
  mode : string
}.

(** The arguments of [model.fit]. *)
Record fit_call : Type := mkFit {
  fit_x : generator_call;
  fit_steps_per_epoch : Z;
  fit_epochs : Z;
  fit_validation_data : generator_call;
  fit_callbacks : list ModelCheckpoint;
  fit_validation_steps : Z
}.

Inductive layer : Type :=
| Cropping2D (top bottom left right : nat)
| Lambda_scale
| Conv2D (filters kernel stride : nat)
| MaxPooling2D (pool : nat)
| Flatten
| Dense (units : nat) (elu : bool)
| Dropout (rate : pyfloat).

(** [build_model]: modified NVIDIA model. *)
Definition build_model (args : Args) : list layer :=
  [ Cropping2D 75 25 10 10;
    Lambda_scale;
    Conv2D 24 3 2;
    MaxPooling2D 2;
    Conv2D 36 3 2;
    MaxPooling2D 2;
    Flatten;
    Dense 1024 true;
    Dropout (keep_prob args);
    Dense 128 true;
    Dense 50 true;
    Dense 1 false ].

(** The framework behind [model.fit], for weights of type [W]: the weights
    a freshly built model starts from, and one epoch of the fit loop, which
    returns the weights after the epoch and the validation loss measured
    with them (a NaN loss is not modelled). *)
Record Keras (W : Type) : Type := mkKeras {
  initial_weights : list layer -> W;
  run_epoch : fit_call -> nat -> W -> W * Q
}.
Arguments mkKeras {W} _ _.
Arguments initial_weights {W} k _.
Arguments run_epoch {W} k _ _ _.

(** The shape of a tensor between two layers (the batch axis left out): an
    image of [h] lines, [w] columns and [c] channels, or a flat vector. *)
Inductive tensor : Type :=
| Image (h w c : nat)
| Flat (n : nat).

(** One axis through a convolution or a pooling window of [size] moved by
    [stride], without padding; [None] when the window does not fit. *)
Definition window (size stride n : nat) : option nat :=
  if (n <? size)%nat then None else Some ((n - size) / stride + 1)%nat.

(** The output shape of a layer on an input shape, as the framework infers
    it; [None] where it refuses the input. *)
Definition layer_shape (l : layer) (t : tensor) : option tensor :=
  match l, t with
  | Cropping2D top bottom left right, Image h w c =>
      if ((top + bottom <? h) && (left + right <? w))%nat
      then Some (Image (h - top - bottom) (w - left - right) c)
      else None
  | Conv2D filters kernel stride, Image h w c =>
      match window kernel stride h, window kernel stride w with
      | Some h', Some w' => Some (Image h' w' filters)
      | _, _ => None
      end
  | MaxPooling2D pool, Image h w c =>
      match window pool pool h, window pool pool w with
      | Some h', Some w' => Some (Image h' w' c)
      | _, _ => None
      end
  | Flatten, Image h w c => Some (Flat (h * w * c))
  | Flatten, Flat n => Some (Flat n)
  | Dense units _, Image h w c => Some (Image h w units)
  | Dense units _, Flat n => Some (Flat units)
  | Lambda_scale, _ => Some t
  | Dropout _, _ => Some t
  | _, Flat _ => None
  end.

(** The output shape of a stack of layers. *)
Fixpoint model_shape (layers : list layer) (t : tensor) : option tensor :=
  match layers with
  | [] => Some t
  | l :: rest =>
      match layer_shape l t with
      | Some t' => model_shape rest t'
      | None => None
      end
  end.

(** What the two convolution and pooling stages of [build_model] leave of
    an axis of [n] cells: kernel 3 with stride 2, pool 2, twice. *)
Definition stages (n : nat) : nat :=
  ((((n - 3) / 2 + 1 - 2) / 2 + 1 - 3) / 2 + 1 - 2) / 2 + 1.

Section Training.
Context {W : Type}.

(** The files written, and the order they were written in. *)
Record disk : Type := mkDisk {
  contents : string -> option W;
  written : list (string * W)
}.

Definition empty_disk : disk := mkDisk (fun _ => None) [].

(** [model.save(path)] and the callback's save: the file is replaced. *)
Definition save (path : string) (w : W) (d : disk) : disk :=
  mkDisk (fun p => if p =? path then Some w else contents d p)
         (written d ++ [(path, w)]).

(** The callback's comparison: with [monitor='val_loss'] and [mode='auto']
    it is [np.less], and [best] starts at infinity ([None]). *)
Definition monitor_op (current : Q) (best : option Q) : bool :=
  match best with
  | None => true
  | Some b => negb (Qle_bool b current)
  end.

(** [ModelCheckpoint.on_epoch_end]: the callback's [best] and the disk after
    an epoch that ended with weights [w] and validation loss [current]. *)
Definition on_epoch_end (cp : ModelCheckpoint) (best : option Q) (current : Q)
  (w : W) (d : disk) : option Q * disk :=
  if cp_save_best_only cp then
    if monitor_op current best
    then (Some current, save (filepath cp) w d)
    else (best, d)
  else (best, save (filepath cp) w d).

(** All callbacks of the call, each with its own [best]. *)
Fixpoint callbacks_on_epoch_end (cps : list (ModelCheckpoint * option Q))
  (current : Q) (w : W) (d : disk) : list (ModelCheckpoint * option Q) * disk :=
  match cps with
  | [] => ([], d)
  | (cp, best) :: rest =>
      let '(best', d1) := on_epoch_end cp best current w d in
      let '(rest', d2) := callbacks_on_epoch_end rest current w d1 in
      ((cp, best') :: rest', d2)
  end.

(** The fit loop: [todo] epochs from epoch number [k] on. *)
Fixpoint fit_epochs_from (K : Keras W) (call : fit_call) (todo k : nat)
  (cps : list (ModelCheckpoint * option Q)) (w : W) (d : disk) : W * disk :=
  match todo with
  | O => (w, d)
  | S todo' =>
      let '(w', val_loss) := run_epoch K call k w in
      let '(cps', d') := callbacks_on_epoch_end cps val_loss w' d in
      fit_epochs_from K call todo' (S k) cps' w' d'
  end.

(** What the epochs of the fit loop produce: the weights after each epoch
    and the validation loss measured with them, in order. *)
Fixpoint epoch_results (K : Keras W) (call : fit_call) (todo k : nat) (w : W)
  : list (W * Q) :=
  match todo with
  | O => []
  | S todo' =>
      let '(w', val_loss) := run_epoch K call k w in
      (w', val_loss) :: epoch_results K call todo' (S k) w'
  end.

Definition fit (K : Keras W) (call : fit_call) (w : W) (d : disk) : W * disk :=
  fit_epochs_from K call (Z.to_nat (fit_epochs call)) 0
    (map (fun cp => (cp, None)) (fit_callbacks call)) w d.

(** With best-only saving: what the callback knows after the epochs [seen].
    Before the first epoch its best is infinite; afterwards its best is the
    loss of the earliest epoch with the lowest loss, and the file holds the
    weights of that epoch. *)
Definition best_kept (cp : ModelCheckpoint) (seen : list (W * Q))
  (best : option Q) (d : disk) : Prop :=
  match best with
  | None => seen = []
  | Some l =>
      exists before w after,
        seen = (before ++ (w, l) :: after)%list /\
        Forall (fun r => (l < snd r)%Q) before /\
        Forall (fun r => (l <= snd r)%Q) after /\
        contents d (filepath cp) = Some w
  end.

(** The checkpoint [train_model] creates. *)
Definition checkpoint (args : Args) : ModelCheckpoint :=
  mkCheckpoint "model.h5" "val_loss" (save_best_only args) "auto".

(** The call of [model.fit] in [train_model]. *)
Definition train_model_fit (args : Args) (X_train X_valid : list paths)
  (y_train y_valid : list cell) : fit_call :=
  mkFit (mkGenerator (data_dir args) X_train y_train (batch_size args) true)
        (samples_per_epoch args)
        (nb_epoch args)
        (mkGenerator (data_dir args) X_valid y_valid (batch_size args) true)
        [checkpoint args]
        (samples_per_epoch args).

(** [train_model]: train the model, then save it. *)
Definition train_model (K : Keras W) (w : W) (args : Args)
  (X_train X_valid : list paths) (y_train y_valid : list cell) (d : disk)
  : W * disk :=
  let '(w', d') :=
    fit K (train_model_fit args X_train X_valid y_train y_valid) w d in
  (w', save "model.h5" w' d').

(** What [main] got to do, in order. *)
Inductive step : Type :=
| Parsed
| PrintedParameters
| LoadedData
| BuiltModel
| Trained.

(** How the process ends: [sys.exit(2)] after the usage message, an
    exception that nothing catches, or the end of [main]. *)
Inductive ending : Type :=
| SysExit (status : Z) (f : flag) (value : string)
| Uncaught (e : exn)
| Returned (d : disk).

(** [main]: load train/validation data set and train the model. *)
Definition main (L : Imports) (K : Keras W) (fs : file_system)
  (cl : command_line) (g : rng_state L) (d : disk) : list step * ending :=
  match parse_args cl with
  | UsageError f v => ([], SysExit (exit_status (UsageError f v)) f v)
  | Namespace args =>
      match load_data L fs args g with
      | Raise e => ([Parsed; PrintedParameters], Uncaught e)
      | Ok ((X_train, X_valid, y_train, y_valid), _) =>
          let model := build_model args in
          let '(_, d') :=
            train_model K (initial_weights K model) args
              X_train X_valid y_train y_valid d in
          ([Parsed; PrintedParameters; LoadedData; BuiltModel; Trained],
           Returned d')
      end
  end.

(** The script run as a program: whatever state the global generator had,
    [np.random.seed(0)] at module level replaces it before [main] runs. *)
Definition run (L : Imports) (K : Keras W) (fs : file_system)
  (cl : command_line) (g : rng_state L) (d : disk) : list step * ending :=
  main L K fs cl (np_random_seed L 0) d.

End Training.
Arguments disk W : clear implicits.

End Trainer.

(** ** The random stream of the data pipeline *)

Module Rng.

(** Modelled from the spec: the RNG stream that the Balancer, the Augmentor
    and the Batch Generator draw from ([utils] is not among the sources).
    The spec fixes no algorithm: a stream is the sequence of its raw draws
    and a cursor, and a draw moves the cursor. *)
Record rng : Type := mkRng {
  draws : nat -> nat;
  cursor : nat
}.

Definition next (r : rng) : nat * rng :=
  (draws r (cursor r), mkRng (draws r) (S (cursor r))).

(** A draw reduced to [0 .. n-1]. *)
Definition below (n : nat) (r : rng) : nat * rng :=
  let '(k, r') := next r in (k mod n, r').

Definition remove_at {A : Type} (i : nat) (l : list A) : list A :=
  firstn i l ++ skipn (S i) l.

(** A shuffle by repeated random picks; [fuel] is the length of the list. *)
Fixpoint shuffle_with {A : Type} (fuel : nat) (l : list A) (r : rng)
  : list A * rng :=
  match fuel with
  | O => (l, r)
  | S fuel' =>
      let '(i, r1) := below (List.length l) r in
      match nth_error l i with
      | Some x =>
          let '(rest, r2) := shuffle_with fuel' (remove_at i l) r1 in
          (x :: rest, r2)
      | None => (l, r1)
      end
  end.

Definition shuffle {A : Type} (l : list A) (r : rng) : list A * rng :=
  shuffle_with (List.length l) l r.

(** A stream started from a seed by a generating algorithm [gen]. *)
Definition seeded (gen : Z -> nat -> nat) (seed : Z) : rng :=
  mkRng (gen seed) 0.

(** One generating algorithm to run examples with. *)
Definition lcg_step (s : Z) : Z := ((1103515245 * s + 12345) mod 2 ^ 31)%Z.

Definition lcg (seed : Z) (i : nat) : nat :=
  Z.to_nat (Nat.iter (S i) lcg_step seed / 2 ^ 23)%Z.

End Rng.

(** ** The Steering-Angle Balancer *)

Module Balancer.
Import Data Rng.

(** Modelled from the spec: the Steering-Angle Balancer ([balanceData] of
    [utils], which is not among the sources).  The policy of the spec:
    bucket angles into ranges, cap samples per bucket, down-sample
    overrepresented buckets.  [bucket_of] gives the range a sample's angle
    falls in and [cap] the number of samples a bucket may keep. *)
Record policy : Type := mkPolicy {
  bucket_of : row -> nat;
  cap : nat
}.

Definition bucket_count (P : policy) (b : nat) (df : DataFrame) : nat :=
  List.length (filter (fun r => (bucket_of P r =? b)%nat) df).

(** The least number of samples the Balancer has to leave in a bucket: all
    of them, up to the cap. *)
Definition min_retained (P : policy) (df : DataFrame) (b : nat) : nat :=
  Nat.min (bucket_count P b df) (cap P).

Definition bump (taken : nat -> nat) (b : nat) : nat -> nat :=
  fun b' => if (b' =? b)%nat then S (taken b') else taken b'.

(** Walks the numbered samples in the order given and keeps a sample while
    its bucket holds fewer than [cap] kept samples. *)
Fixpoint keep_up_to_cap (P : policy) (taken : nat -> nat)
  (l : list (nat * row)) : list (nat * row) :=
  match l with
  | [] => []
  | (i, r) :: rest =>
      let b := bucket_of P r in
      if (taken b <? cap P)%nat
      then (i, r) :: keep_up_to_cap P (bump taken b) rest
      else keep_up_to_cap P taken rest
  end.

(** The samples are numbered and shuffled, the shuffled order decides which
    samples of an overfull bucket stay, and the samples that stay are
    returned in the order of the log. *)
Definition balance (P : policy) (df : DataFrame) (r : rng) : DataFrame * rng :=
  let numbered := combine (seq 0 (List.length df)) df in
  let '(shuffled, r') := shuffle numbered r in
  let kept := map fst (keep_up_to_cap P (fun _ => 0%nat) shuffled) in
  (map snd (filter (fun p => existsb (Nat.eqb (fst p)) kept) numbered), r').

End Balancer.

(** ** The Image Augmentor *)

Module Augmentor.
Import Rng.

Definition pixel : Type := (Z * Z * Z)%type.
Definition image : Type := list (list pixel).
Definition black : pixel := (0, 0, 0)%Z.

(** Modelled from the spec: the constants of the Image Augmentor, which the
    spec leaves open ([utils] and its [INPUT_SHAPE] are not among the
    sources): the fixed model input shape (three channels), the fixed crop,
    the range of the translation in pixels, the angle added per pixel of
    horizontal shift, and the range of the brightness factor in percent. *)
Record config : Type := mkConfig {
  height : nat;
  width : nat;
  crop_top : nat;
  crop_bottom : nat;
  range_x : nat;
  range_y : nat;
  angle_per_pixel : Q;
  brightness_low : nat;
  brightness_span : nat
}.

Definition has_shape (C : config) (img : image) : Prop :=
  List.length img = height C /\
  Forall (fun line => List.length line = width C) img.

(** The fixed crop: [crop_top] lines off the top, [crop_bottom] off the
    bottom. *)
Definition crop (C : config) (img : image) : image :=
  firstn (List.length img - crop_top C - crop_bottom C) (skipn (crop_top C) img).

(** Resizing to the model input shape, by nearest neighbour. *)
Definition resize (C : config) (img : image) : image :=
  map (fun i =>
         let src := nth (i * List.length img / height C) img [] in
         map (fun j => nth (j * List.length src / width C) src black)
             (seq 0 (width C)))
      (seq 0 (height C)).

(** The deterministic preprocessing (crop/resize). *)
Definition preprocess (C : config) (img : image) : image :=
  resize C (crop C img).

Definition hflip (img : image) : image := map (@rev pixel) img.

(** The optional horizontal flip, negating the angle. *)
Definition random_flip (img : image) (angle : Q) (r : rng) : image * Q * rng :=
  let '(k, r') := below 2 r in
  if (k =? 1)%nat then (hflip img, (- angle)%Q, r') else (img, angle, r').

Definition shift_of (range k : nat) : Z :=
  (Z.of_nat (k mod (2 * range + 1)) - Z.of_nat range)%Z.

Definition pixel_or_black (img : image) (i j : Z) : pixel :=
  if ((0 <=? i) && (0 <=? j))%Z
  then nth (Z.to_nat j) (nth (Z.to_nat i) img []) black
  else black.

(** The image moved [tx] pixels right and [ty] pixels down. *)
Definition translate (tx ty : Z) (img : image) : image :=
  map (fun i =>
         map (fun j => pixel_or_black img (Z.of_nat i - ty) (Z.of_nat j - tx))
             (seq 0 (List.length (nth i img []))))
      (seq 0 (List.length img)).

(** The small translation, the angle adjusted proportionally to the
    horizontal shift. *)
Definition random_translate (C : config) (img : image) (angle : Q) (r : rng)
  : image * Q * rng :=
  let '(kx, r1) := next r in
  let '(ky, r2) := next r1 in
  let tx := shift_of (range_x C) kx in
  let ty := shift_of (range_y C) ky in
  (translate tx ty img, (angle + inject_Z tx * angle_per_pixel C)%Q, r2).

Definition scale (percent : nat) (c : Z) : Z :=
  Z.min 255 (c * Z.of_nat percent / 100).

Definition brighten (percent : nat) (img : image) : image :=
  map (map (fun '(red, green, blue) =>
              (scale percent red, scale percent green, scale percent blue)))
      img.

Definition random_brightness (C : config) (img : image) (r : rng) : image * rng :=
  let '(k, r') := below (S (brightness_span C)) r in
  (brighten (brightness_low C + k) img, r').

(** Modelled from the spec: the Image Augmentor.  In training the fixed
    crop, the optional flip, the translation and the brightness jitter are
    applied, each with draws of its own, and the result is brought to the
    model input shape; otherwise only the deterministic preprocessing is
    applied and the stream is not touched. *)
Definition augment (C : config) (img : image) (angle : Q) (is_training : bool)
  (r : rng) : image * Q * rng :=
  if is_training then
    let '(img1, angle1, r1) := random_flip (crop C img) angle r in
    let '(img2, angle2, r2) := random_translate C img1 angle1 r1 in
    let '(img3, r3) := random_brightness C img2 r2 in
    (resize C img3, angle2, r3)
  else (preprocess C img, angle, r).

End Augmentor.

(** ** The Batch Generator *)

Module Generator.
Import Py Rng Augmentor.

(** The image files under the data directory; [None] for a path that cannot
    be read. *)
Definition image_store : Type := string -> option image.

(** The three camera views of a sample: centre, left, right. *)
Definition views : Type := (string * string * string)%type.

(** The weights of the random pick among the three views. *)
Record weights : Type := mkWeights {
  w_center : nat;
  w_left : nat;
  w_right : nat
}.

(** A generator between two calls: its stream, and the samples of the
    current pass over the arrays that are still to come. *)
Record state : Type := mkState {
  stream : rng;
  queue : list nat
}.

Definition start (r : rng) : state := mkState r [].

Section Calls.
Variable C : config.
Variable Wt : weights.
Variable store : image_store.
Variable image_paths : list views.
Variable steering_angles : list Q.
Variable is_training : bool.

Definition read_image (path : string) : result image :=
  match store path with
  | Some img => Ok img
  | None => Raise (FileNotFoundError path)
  end.

(** The next sample of the pass; a new pass over the arrays, in a fresh
    random order, starts when the current one is used up.  There is nothing
    to draw from empty arrays. *)
Definition draw_index (st : state) : result (nat * state) :=
  match queue st with
  | i :: q => Ok (i, mkState (stream st) q)
  | [] =>
      let '(pass, r) := shuffle (seq 0 (List.length image_paths)) (stream st) in
      match pass with
      | i :: q => Ok (i, mkState r q)
      | [] => Raise IndexError
      end
  end.

(** The weighted random pick of a view. *)
Definition pick_view (v : views) (r : rng) : string * rng :=
  let '(c, l, rt) := v in
  let '(k, r') := below (w_center Wt + w_left Wt + w_right Wt) r in
  if (k <? w_center Wt)%nat then (c, r')
  else if (k <? w_center Wt + w_left Wt)%nat then (l, r')
  else (rt, r').

(** One sample of a batch: drawn, read, and passed through the Augmentor. *)
Definition one_sample (st : state) : result (image * Q * state) :=
  '(i, st1) <- draw_index st ;;
  match nth_error image_paths i, nth_error steering_angles i with
  | Some v, Some angle =>
      let '(path, r1) :=
        if is_training then pick_view v (stream st1)
        else (fst (fst v), stream st1) in
      img <- read_image path ;;
      let '(img', angle', r2) := augment C img angle is_training r1 in
      Ok (img', angle', mkState r2 (queue st1))
  | _, _ => Raise IndexError
  end.

Fixpoint assemble (count : nat) (st : state)
  : result (list (image * Q) * state) :=
  match count with
  | O => Ok ([], st)
  | S count' =>
      '(img, angle, st1) <- one_sample st ;;
      '(rest, st2) <- assemble count' st1 ;;
      Ok ((img, angle) :: rest, st2)
  end.

(** Modelled from the spec: one call of the Batch Generator
    ([batch_generator] of [utils], which is not among the sources): it draws
    [batch_size] samples from the arrays, applies the Augmentor to each and
    assembles the batch.  An image that cannot be read ends the generator
    with the error. *)
Definition next_batch (batch_size : nat) (st : state)
  : result (list (image * Q) * state) :=
  assemble batch_size st.

(** [calls] calls in a row. *)
Fixpoint batches (batch_size calls : nat) (st : state)
  : result (list (list (image * Q)) * state) :=
  match calls with
  | O => Ok ([], st)
  | S calls' =>
      '(b, st1) <- next_batch batch_size st ;;
      '(rest, st2) <- batches batch_size calls' st1 ;;
      Ok (b :: rest, st2)
  end.

(** The three views of a sample can be read. *)
Definition readable (v : views) : Prop :=
  let '(c, l, rt) := v in
  store c <> None /\ store l <> None /\ store rt <> None.

(** The samples still to come are samples of the arrays. *)
Definition queue_ok (st : state) : Prop :=
  Forall (fun i => (i < List.length image_paths)%nat) (queue st).

(** A batch as the spec asks for it: [batch_size] pairs, every image of the
    model input shape. *)
Definition batch_ok (batch_size : nat) (batch : list (image * Q)) : Prop :=
  List.length batch = batch_size /\
  Forall (fun p => has_shape C (fst p)) batch.

End Calls.

End Generator.

(** ** Concrete inputs *)

Module Examples.
Import PyStr Cli Py Data Rng Balancer Augmentor Generator Trainer.

(** A framework whose weights count the epochs trained; the validation loss
    is 1 after the first epoch and 2 after every later one. *)
Definition K0 : Keras nat :=
  mkKeras (fun _ => 0%nat)
          (fun _ k w => (S w, if (k =? 0)%nat then 1%Q else 2%Q)).

(** The namespace of the command line [-n 2]. *)
Definition two_epochs : Args :=
  mkArgs "data" (FDec 2 (-1)) (FDec 25 (-2)) 2 10 40 true (FDec 10 (-5)).

(** A Balancer policy with three buckets (left, right, no angle) and a cap
    of two samples. *)
Definition P0 : policy :=
  mkPolicy
    (fun r =>
       match steering r with
       | Some s =>
           match py_float s with
           | Some (FDec m _) => if (m <? 0)%Z then 0%nat else 1%nat
           | _ => 2%nat
           end
       | None => 2%nat
       end)
    2.

(** Imports to run [load_data] with: the stream of the data pipeline as the
    global generator, the Balancer of the spec under [P0], and the reversal
    as the permutation of the split. *)
Definition L0 : Imports :=
  mkImports rng (seeded lcg) (fun df _ g => Ok (balance P0 df g))
            (fun n => rev (seq 0 n)).

(** A log of three records; the second one stops after the steering angle. *)
Definition log0 : csv_file :=
  [ ["IMG/c1.jpg"; "IMG/l1.jpg"; "IMG/r1.jpg"; "0.1"; "0.9"; "0"; "30.1"];
    ["IMG/c2.jpg"; "IMG/l2.jpg"; "IMG/r2.jpg"; "-0.3"];
    ["IMG/c3.jpg"; "IMG/l3.jpg"; "IMG/r3.jpg"; "0"; "1"; "0"; "30.2"] ].

Definition fs0 : file_system :=
  fun path => if path =? "data/driving_log.csv" then Some log0 else None.

(** A tiny Augmentor: 2 x 2 model input, one line cropped off the top. *)
Definition C0 : config := mkConfig 2 2 1 0 1 1 (1 # 100) 50 100.

Definition img0 : image :=
  [ [(9, 9, 9); (9, 9, 9); (9, 9, 9)];
    [(10, 20, 30); (40, 50, 60); (70, 80, 90)];
    [(100, 110, 120); (130, 140, 150); (160, 170, 180)] ]%Z.

(** The log of [fs0] under another directory. *)
Definition fs1 : file_system :=
  fun path => if path =? "run2/driving_log.csv" then Some log0 else None.

(** The namespace of the command line [-d run2 -b 8 -o no]. *)
Definition other_run : Args :=
  mkArgs "run2" (FDec 2 (-1)) (FDec 25 (-2)) 1 10 8 false (FDec 10 (-5)).

Definition Wt0 : weights := mkWeights 2 1 1.

Definition store0 : image_store :=
  fun path =>
    if (path =? "c.jpg") || (path =? "l.jpg") || (path =? "r.jpg")
    then Some img0 else None.

End Examples.

(** * Properties *)

Example s2b_examples :
  Cli.s2b "TRUE" = true /\ Cli.s2b "Yes" = true /\ Cli.s2b "0" = false /\
  Cli.s2b "maybe" = false.
Proof. repeat split; reflexivity. Qed.

Example py_int_examples :
  PyStr.py_int " 12 " = Some 12%Z /\ PyStr.py_int "-1_000" = Some (-1000)%Z /\
  PyStr.py_int "1__0" = None /\ PyStr.py_int "ten" = None /\
  PyStr.py_int "" = None /\ PyStr.py_int "1_" = None.
Proof. repeat split; reflexivity. Qed.

Example py_float_examples :
  PyStr.py_float "0.25" = Some (PyStr.FDec 25 (-2)) /\
  PyStr.py_float "1.0e-4" = Some (PyStr.FDec 10 (-5)) /\
  PyStr.py_float ".5" = Some (PyStr.FDec 5 (-1)) /\
  PyStr.py_float "5." = Some (PyStr.FDec 5 0) /\
  PyStr.py_float "-INF" = Some (PyStr.FInf true) /\
  PyStr.py_float "." = None /\ PyStr.py_float "1e" = None /\
  PyStr.py_float "abc" = None /\ PyStr.py_float "1.5.2" = None.
Proof. repeat split; reflexivity. Qed.

(** ** The command line *)

Section CliFacts.
Import PyStr Cli.

Lemma set_option_raises (a : Args) (f : flag) (v : string) :
  convertible f v = false -> set_option a f v = Raises.
Proof.
  destruct f; cbn [convertible set_option];
    try (destruct (type_float v); [discriminate | reflexivity]);
    try (destruct (type_int v); [discriminate | reflexivity]);
    discriminate.
Qed.

Lemma set_option_converts (a : Args) (f : flag) (v : string) :
  convertible f v = true -> exists a', set_option a f v = Value a'.
Proof.
  destruct f; cbn [convertible set_option type_str type_s2b];
    try (destruct (type_float v); [eauto | discriminate]);
    try (destruct (type_int v); [eauto | discriminate]);
    eauto.
Qed.

Lemma parse_from_rejects (cl1 : command_line) :
  forall (a : Args) (f : flag) (v : string) (cl2 : command_line),
    Forall (fun o => convertible (fst o) (snd o) = true) cl1 ->
    convertible f v = false ->
    parse_from a (cl1 ++ (f, v) :: cl2)%list = UsageError f v.
Proof.
  induction cl1 as [|[f1 v1] cl1 IH]; intros a f v cl2 Hall Hbad;
    cbn [List.app parse_from].
  - now rewrite set_option_raises.
  - inversion Hall as [|? ? Hok Hrest]; subst. cbn [fst snd] in Hok.
    destruct (set_option_converts a f1 v1 Hok) as (a' & ->).
    now apply IH.
Qed.

Lemma parse_from_accepts (cl : command_line) :
  forall a : Args,
    Forall (fun o => convertible (fst o) (snd o) = true) cl ->
    exists a', parse_from a cl = Namespace a'.
Proof.
  induction cl as [|[f v] cl IH]; intros a Hall; cbn [parse_from].
  - eauto.
  - inversion Hall as [|? ? Hok Hrest]; subst. cbn [fst snd] in Hok.
    destruct (set_option_converts a f v Hok) as (a' & ->).
    now apply IH.
Qed.

(** The value of [-o] is never refused. *)
Lemma best_only_value_converts (v : string) : convertible Opt_o v = true.
Proof. reflexivity. Qed.

End CliFacts.

(** C9: [s2b] is true exactly when the lower-cased string is one of
    ['true'], ['yes'], ['y'], ['1']; on every other string it is false and
    raises nothing, so the callable registered for [-o] converts every
    value, and a command line whose [-o] value is none of these words is
    parsed into a namespace with best-only saving off. *)
Theorem s2b_true_iff (s : string) :
  (Cli.s2b s = true <->
   In (PyStr.lower s) ["true"; "yes"; "y"; "1"]) /\
  (Cli.s2b s = false <->
   ~ In (PyStr.lower s) ["true"; "yes"; "y"; "1"]) /\
  Cli.type_s2b s = Cli.Value (Cli.s2b s) /\
  (Cli.s2b s = false ->
   exists a, Cli.parse_args [(Cli.Opt_o, s)] = Cli.Namespace a /\
             Cli.save_best_only a = false).
Proof.
  assert (Cli.s2b s = true <->
          In (PyStr.lower s) ["true"; "yes"; "y"; "1"]) as Hiff.
  { unfold Cli.s2b. cbn [In].
    rewrite !orb_true_iff, !String.eqb_eq. intuition congruence. }
  repeat split.
  - apply Hiff.
  - apply Hiff.
  - intros Hfalse Hin. apply Hiff in Hin. congruence.
  - intros Hnot. destruct (Cli.s2b s) eqn:E; [|reflexivity].
    exfalso. apply Hnot. now apply Hiff.
  - intros Hfalse. eexists. split; [reflexivity|]. exact Hfalse.
Qed.

(** C6, as the code has it: a value that the [type] of its option cannot
    convert (an [int] or [float] option with a value [int()] or [float()]
    refuses) ends the program at parse time, with the usage error and exit
    status 2, before anything is loaded or trained; the options before it
    were converted.  The values of [-d] and [-o] are never refused. *)
Theorem unconvertible_value_is_usage_error
  {W : Type} (L : Data.Imports) (K : Trainer.Keras W) (fs : Data.file_system)
  (cl1 cl2 : Cli.command_line) (f : Cli.flag) (v : string)
  (g : Data.rng_state L) (d : Trainer.disk W) :
  Forall (fun o => Cli.convertible (fst o) (snd o) = true) cl1 ->
  Cli.convertible f v = false ->
  Cli.parse_args (cl1 ++ (f, v) :: cl2)%list = Cli.UsageError f v /\
  Cli.exit_status (Cli.parse_args (cl1 ++ (f, v) :: cl2)%list) = 2%Z /\
  Trainer.main L K fs (cl1 ++ (f, v) :: cl2)%list g d
    = ([], Trainer.SysExit 2 f v) /\
  (forall v', Cli.convertible Cli.Opt_d v' = true /\
              Cli.convertible Cli.Opt_o v' = true).
Proof.
  intros Hall Hbad.
  assert (Cli.parse_args (cl1 ++ (f, v) :: cl2)%list = Cli.UsageError f v) as E.
  { unfold Cli.parse_args. now apply parse_from_rejects. }
  unfold Trainer.main. rewrite E. cbn. auto.
Qed.

Lemma unconvertible_value_is_usage_error_witness :
  Cli.parse_args
    ([(Cli.Opt_d, "data")] ++ (Cli.Opt_b, "forty") :: [(Cli.Opt_o, "yes")])%list
  = Cli.UsageError Cli.Opt_b "forty" /\
  Cli.exit_status
    (Cli.parse_args
       ([(Cli.Opt_d, "data")] ++ (Cli.Opt_b, "forty")
          :: [(Cli.Opt_o, "yes")])%list) = 2%Z /\
  Trainer.main Examples.L0 Examples.K0 Examples.fs0
    ([(Cli.Opt_d, "data")] ++ (Cli.Opt_b, "forty") :: [(Cli.Opt_o, "yes")])%list
    (Rng.seeded Rng.lcg 0) Trainer.empty_disk
  = ([], Trainer.SysExit 2 Cli.Opt_b "forty") /\
  (forall v', Cli.convertible Cli.Opt_d v' = true /\
              Cli.convertible Cli.Opt_o v' = true).
Proof.
  apply (unconvertible_value_is_usage_error Examples.L0 Examples.K0
           Examples.fs0 [(Cli.Opt_d, "data")] [(Cli.Opt_o, "yes")]
           Cli.Opt_b "forty" (Rng.seeded Rng.lcg 0) Trainer.empty_disk).
  - constructor; [reflexivity | constructor].
  - reflexivity.
Defined.

(** C6 fails for the best-only option: a value that is no boolean word is
    not refused; parsing succeeds, with exit status 0 and best-only saving
    turned off. *)
Lemma best_only_garbage_is_accepted :
  Cli.parse_args [(Cli.Opt_o, "maybe")]
    = Cli.Namespace
        (Cli.mkArgs "data" (PyStr.FDec 2 (-1)) (PyStr.FDec 25 (-2)) 1 10 40
                    false (PyStr.FDec 10 (-5))) /\
  Cli.exit_status (Cli.parse_args [(Cli.Opt_o, "maybe")]) = 0%Z.
Proof. split; vm_compute; reflexivity. Qed.

(** ** The random stream *)

Section RngFacts.
Import Rng.
Context {A : Type}.

Lemma remove_at_perm (l : list A) (i : nat) (x : A) :
  nth_error l i = Some x -> Permutation l (x :: remove_at i l).
Proof.
  intros H.
  destruct (nth_error_split l i H) as (l1 & l2 & -> & Hlen).
  subst i. unfold remove_at.
  rewrite firstn_app, skipn_app.
  rewrite firstn_all2 by lia.
  replace (List.length l1 - List.length l1)%nat with 0%nat by lia.
  replace (S (List.length l1) - List.length l1)%nat with 1%nat by lia.
  rewrite skipn_all2 by lia.
  simpl. rewrite app_nil_r.
  symmetry. apply Permutation_middle.
Qed.

Lemma shuffle_with_perm (fuel : nat) :
  forall (l : list A) (r : rng), Permutation (fst (shuffle_with fuel l r)) l.
Proof.
  induction fuel as [|fuel IH]; intros l r; cbn [shuffle_with].
  - reflexivity.
  - destruct (below (List.length l) r) as [i r1].
    destruct (nth_error l i) as [x|] eqn:Hx.
    + specialize (IH (remove_at i l) r1).
      destruct (shuffle_with fuel (remove_at i l) r1) as [rest r2].
      cbn [fst] in *.
      apply Permutation_trans with (x :: remove_at i l).
      * apply perm_skip. exact IH.
      * symmetry. now apply remove_at_perm.
    + reflexivity.
Qed.

Lemma shuffle_perm (l : list A) (r : rng) : Permutation (fst (shuffle l r)) l.
Proof. apply shuffle_with_perm. Qed.

End RngFacts.

(** ** The Balancer *)

Section BalancerFacts.
Import Data Rng Balancer.
Variable P : policy.

(** The samples of bucket [b] in a numbered list. *)
Let in_bucket (b : nat) (p : nat * row) : bool := (bucket_of P (snd p) =? b)%nat.
Let tally (b : nat) (l : list (nat * row)) : nat :=
  List.length (filter (in_bucket b) l).

Lemma tally_perm (b : nat) (l l' : list (nat * row)) :
  Permutation l l' -> tally b l = tally b l'.
Proof.
  intros H. unfold tally.
  apply Permutation_length.
  induction H; simpl.
  - constructor.
  - destruct (in_bucket b x); [now apply perm_skip | assumption].
  - destruct (in_bucket b x), (in_bucket b y);
      try reflexivity; apply perm_swap.
  - eapply Permutation_trans; eassumption.
Qed.

Lemma tally_map_snd (b : nat) (l : list (nat * row)) :
  bucket_count P b (map snd l) = tally b l.
Proof.
  unfold bucket_count, tally, in_bucket.
  induction l as [|[i r] l IH]; simpl; [reflexivity|].
  destruct (bucket_of P r =? b)%nat; simpl; now rewrite <- ?IH; f_equal.
Qed.

Lemma keep_up_to_cap_tally (b : nat) (l : list (nat * row)) :
  forall taken : nat -> nat,
    tally b (keep_up_to_cap P taken l) = Nat.min (tally b l) (cap P - taken b).
Proof.
  unfold tally, in_bucket.
  induction l as [|[i r] l IH]; intros taken; cbn -[Nat.min Nat.sub Nat.ltb];
    [reflexivity|].
  destruct (taken (bucket_of P r) <? cap P)%nat eqn:Hroom.
  - apply Nat.ltb_lt in Hroom. cbn -[Nat.min Nat.sub Nat.ltb].
    destruct (bucket_of P r =? b)%nat eqn:Hb; cbn -[Nat.min Nat.sub Nat.ltb];
      rewrite IH; unfold bump.
    + apply Nat.eqb_eq in Hb. subst b. rewrite Nat.eqb_refl. lia.
    + rewrite Nat.eqb_sym, Hb. reflexivity.
  - apply Nat.ltb_ge in Hroom. rewrite IH.
    destruct (bucket_of P r =? b)%nat eqn:Hb; cbn -[Nat.min Nat.sub Nat.ltb];
      [|reflexivity].
    apply Nat.eqb_eq in Hb. subst b. lia.
Qed.

Lemma keep_up_to_cap_incl (l : list (nat * row)) :
  forall (taken : nat -> nat) (p : nat * row),
    In p (keep_up_to_cap P taken l) -> In p l.
Proof.
  induction l as [|[i r] l IH]; intros taken p; simpl; [tauto|].
  destruct (taken (bucket_of P r) <? cap P)%nat; simpl; intros H.
  - destruct H as [H|H]; [now left | right; eapply IH; eassumption].
  - right; eapply IH; eassumption.
Qed.

Lemma keep_up_to_cap_nodup (l : list (nat * row)) :
  forall taken : nat -> nat,
    NoDup l -> NoDup (keep_up_to_cap P taken l).
Proof.
  induction l as [|[i r] l IH]; intros taken H; simpl; [constructor|].
  inversion H as [|? ? Hnotin Hrest]; subst.
  destruct (taken (bucket_of P r) <? cap P)%nat.
  - constructor; [|now apply IH].
    intros Hin. apply Hnotin. eapply keep_up_to_cap_incl; eassumption.
  - now apply IH.
Qed.

Lemma numbered_fst (df : DataFrame) (start : nat) :
  map fst (combine (seq start (List.length df)) df) = seq start (List.length df).
Proof.
  revert start. induction df as [|r df IH]; intros start; simpl;
    [reflexivity | now rewrite IH].
Qed.

Lemma numbered_snd (df : DataFrame) (start : nat) :
  map snd (combine (seq start (List.length df)) df) = df.
Proof.
  revert start. induction df as [|r df IH]; intros start; simpl;
    [reflexivity | now rewrite IH].
Qed.

Lemma same_number_same_sample (l : list (nat * row)) (p q : nat * row) :
  NoDup (map fst l) -> In p l -> In q l -> fst p = fst q -> p = q.
Proof.
  induction l as [|x l IH]; simpl; intros Hnd Hp Hq Heq; [tauto|].
  inversion Hnd as [|? ? Hnotin Hrest]; subst.
  destruct Hp as [->|Hp], Hq as [->|Hq]; try reflexivity.
  - exfalso. apply Hnotin. rewrite Heq. now apply in_map.
  - exfalso. apply Hnotin. rewrite <- Heq. now apply in_map.
  - now apply IH.
Qed.

(** Picking the kept samples out of the numbered log gives the kept samples
    again, in another order. *)
Lemma pick_kept_perm (numbered kept : list (nat * row)) :
  NoDup (map fst numbered) -> NoDup kept -> incl kept numbered ->
  Permutation
    (filter (fun p => existsb (Nat.eqb (fst p)) (map fst kept)) numbered)
    kept.
Proof.
  intros Hnum Hkept Hincl.
  apply NoDup_Permutation.
  - apply NoDup_filter. eapply NoDup_map_inv; eassumption.
  - assumption.
  - intros p. rewrite filter_In, existsb_exists. split.
    + intros (Hp & i & Hi & Heq).
      apply Nat.eqb_eq in Heq. apply in_map_iff in Hi.
      destruct Hi as (q & Hq & Hqk). subst i.
      assert (p = q) as ->; [|assumption].
      apply (same_number_same_sample numbered); auto.
    + intros Hp. split; [now apply Hincl|].
      exists (fst p). split; [now apply in_map | apply Nat.eqb_refl].
Qed.

(** What the Balancer leaves in a bucket: everything up to the cap. *)
Lemma balance_bucket_count (df : DataFrame) (r : rng) (b : nat) :
  bucket_count P b (fst (balance P df r)) = Nat.min (bucket_count P b df) (cap P).
Proof.
  unfold balance.
  set (numbered := combine (seq 0 (List.length df)) df).
  pose proof (shuffle_perm numbered r) as Hperm.
  destruct (shuffle numbered r) as [shuffled r']. cbn [fst] in *.
  assert (NoDup (map fst numbered)) as Hnum.
  { unfold numbered. rewrite numbered_fst. apply seq_NoDup. }
  set (kept := keep_up_to_cap P (fun _ => 0%nat) shuffled).
  rewrite tally_map_snd.
  rewrite (tally_perm b _ kept).
  - unfold kept. rewrite keep_up_to_cap_tally.
    rewrite (tally_perm b _ _ Hperm), <- tally_map_snd.
    unfold numbered. rewrite numbered_snd. f_equal. lia.
  - apply pick_kept_perm; [assumption| |].
    + apply keep_up_to_cap_nodup.
      apply (Permutation_NoDup (Permutation_sym Hperm)).
      eapply NoDup_map_inv; eassumption.
    + intros p Hp. apply (Permutation_in _ Hperm).
      eapply keep_up_to_cap_incl; eassumption.
Qed.

End BalancerFacts.

(** ** The Augmentor and the Batch Generator *)

Section AugmentorFacts.
Import Rng Augmentor.
Variable C : config.

Lemma resize_shape (img : image) : has_shape C (resize C img).
Proof.
  unfold has_shape, resize. split.
  - now rewrite length_map, length_seq.
  - apply Forall_forall. intros line Hline.
    apply in_map_iff in Hline. destruct Hline as (i & <- & _).
    now rewrite length_map, length_seq.
Qed.

Lemma augment_shape (img : image) (angle : Q) (is_training : bool) (r : rng) :
  has_shape C (fst (fst (augment C img angle is_training r))).
Proof.
  unfold augment. destruct is_training.
  - destruct (random_flip (crop C img) angle r) as [[img1 angle1] r1].
    destruct (random_translate C img1 angle1 r1) as [[img2 angle2] r2].
    destruct (random_brightness C img2 r2) as [img3 r3].
    apply resize_shape.
  - apply resize_shape.
Qed.

End AugmentorFacts.

Section GeneratorFacts.
Import Py Rng Augmentor Generator.
Variable C : config.
Variable Wt : weights.
Variable store : image_store.
Variable image_paths : list views.
Variable steering_angles : list Q.
Variable is_training : bool.

Hypothesis some_samples : image_paths <> [].
Hypothesis same_length : List.length steering_angles = List.length image_paths.
Hypothesis all_readable : Forall (readable store) image_paths.

Lemma draw_index_ok (st : state) :
  queue_ok image_paths st ->
  exists i st', draw_index image_paths st = Ok (i, st') /\
                (i < List.length image_paths)%nat /\ queue_ok image_paths st'.
Proof.
  unfold queue_ok, draw_index. intros Hq.
  destruct (queue st) as [|i q] eqn:Hqueue.
  - pose proof (shuffle_perm (seq 0 (List.length image_paths)) (stream st))
      as Hperm.
    destruct (shuffle (seq 0 (List.length image_paths)) (stream st))
      as [pass r]. cbn [fst] in Hperm.
    assert (Forall (fun i => (i < List.length image_paths)%nat) pass) as Hpass.
    { apply (Permutation_Forall (Permutation_sym Hperm)).
      apply Forall_forall. intros i Hi. apply in_seq in Hi. lia. }
    destruct pass as [|i q].
    + apply Permutation_length in Hperm. rewrite length_seq in Hperm.
      destruct image_paths; [now elim some_samples | discriminate].
    + inversion Hpass; subst. exists i, (mkState r q). auto.
  - inversion Hq; subst. exists i, (mkState (stream st) q). auto.
Qed.

Lemma pick_view_readable (v : views) (r : rng) :
  readable store v -> store (fst (pick_view Wt v r)) <> None.
Proof.
  destruct v as [[c l] rt]. unfold readable, pick_view.
  intros (Hc & Hl & Hr).
  destruct (below (w_center Wt + w_left Wt + w_right Wt) r) as [k r'].
  destruct (k <? w_center Wt)%nat; [assumption|].
  destruct (k <? w_center Wt + w_left Wt)%nat; assumption.
Qed.

Lemma one_sample_ok (st : state) :
  queue_ok image_paths st ->
  exists img angle st',
    one_sample C Wt store image_paths steering_angles is_training st
      = Ok (img, angle, st') /\
    has_shape C img /\ queue_ok image_paths st'.
Proof.
  intros Hq. unfold one_sample.
  destruct (draw_index_ok st Hq) as (i & st1 & -> & Hi & Hq1).
  cbn [bind].
  destruct (nth_error image_paths i) as [v|] eqn:Hv;
    [|apply nth_error_None in Hv; lia].
  destruct (nth_error steering_angles i) as [angle|] eqn:Ha;
    [|apply nth_error_None in Ha; lia].
  assert (readable store v) as Hread.
  { rewrite Forall_forall in all_readable. apply all_readable.
    eapply nth_error_In; eassumption. }
  assert (exists path r1,
    (if is_training then pick_view Wt v (stream st1)
     else (fst (fst v), stream st1)) = (path, r1) /\ store path <> None)
    as (path & r1 & -> & Hpath).
  { destruct is_training.
    - pose proof (pick_view_readable v (stream st1) Hread) as H.
      destruct (pick_view Wt v (stream st1)) as [path r1]. eauto.
    - destruct v as [[c l] rt]. destruct Hread as (Hc & _). cbn. eauto. }
  unfold read_image. destruct (store path) as [img|]; [|congruence].
  cbn [bind].
  pose proof (augment_shape C img angle is_training r1) as Hshape.
  destruct (augment C img angle is_training r1) as [[img' angle'] r2].
  exists img', angle', (mkState r2 (queue st1)). auto.
Qed.

Lemma assemble_ok (count : nat) :
  forall st : state,
    queue_ok image_paths st ->
    exists batch st',
      assemble C Wt store image_paths steering_angles is_training count st
        = Ok (batch, st') /\
      List.length batch = count /\
      Forall (fun p => has_shape C (fst p)) batch /\
      queue_ok image_paths st'.
Proof.
  induction count as [|count IH]; intros st Hq; cbn [assemble].
  - exists [], st. auto.
  - destruct (one_sample_ok st Hq) as (img & angle & st1 & -> & Hshape & Hq1).
    cbn [bind].
    destruct (IH st1 Hq1) as (rest & st2 & -> & Hlen & Hall & Hq2).
    cbn [bind].
    exists ((img, angle) :: rest), st2. cbn [List.length]. auto.
Qed.

Lemma batches_ok (batch_size calls : nat) :
  forall st : state,
    queue_ok image_paths st ->
    exists bs st',
      batches C Wt store image_paths steering_angles is_training
        batch_size calls st = Ok (bs, st') /\
      List.length bs = calls /\ Forall (batch_ok C batch_size) bs /\
      queue_ok image_paths st'.
Proof.
  induction calls as [|calls IH]; intros st Hq; cbn [batches].
  - exists [], st. auto.
  - unfold next_batch.
    destruct (assemble_ok batch_size st Hq) as (b & st1 & -> & Hlen & Hall & Hq1).
    cbn [bind].
    destruct (IH st1 Hq1) as (rest & st2 & -> & Hn & Hrest & Hq2).
    cbn [bind].
    exists (b :: rest), st2. cbn [List.length].
    repeat split; auto. constructor; [split|]; assumption.
Qed.

End GeneratorFacts.

(** C4: the Balancer never takes a bucket below its minimum retained
    count, and a bucket whose minimum retained count is not zero is not left
    empty. *)
Theorem balancer_keeps_minimum
  (P : Balancer.policy) (df : Data.DataFrame) (r : Rng.rng) (b : nat) :
  (Balancer.min_retained P df b
   <= Balancer.bucket_count P b (fst (Balancer.balance P df r)))%nat /\
  (Balancer.min_retained P df b <> 0%nat ->
   Balancer.bucket_count P b (fst (Balancer.balance P df r)) <> 0%nat).
Proof.
  rewrite balance_bucket_count. unfold Balancer.min_retained.
  split; [apply Nat.le_refl | auto].
Qed.

(** The angle the Augmentor returns in training: the angle after the flip
    step, plus the adjustment of the translation. *)
Lemma augment_angle (C : Augmentor.config) (img : Augmentor.image)
  (angle : Q) (r : Rng.rng) :
  snd (fst (Augmentor.augment C img angle true r))
  = (snd (fst (Augmentor.random_flip (Augmentor.crop C img) angle r))
     + inject_Z
         (Augmentor.shift_of (Augmentor.range_x C)
            (Rng.draws r (S (Rng.cursor r))))
       * Augmentor.angle_per_pixel C)%Q.
Proof.
  unfold Augmentor.augment, Augmentor.random_flip, Augmentor.random_translate,
    Augmentor.random_brightness, Rng.below, Rng.next.
  cbn [Rng.draws Rng.cursor].
  destruct (Rng.draws r (Rng.cursor r) mod 2 =? 1)%nat; reflexivity.
Qed.

(** C5: when the Augmentor's flip step flips the image, the angle it
    returns with the mirrored image is the negated angle. *)
Theorem flip_negates_angle
  (img : Augmentor.image) (angle : Q) (r : Rng.rng) :
  fst (Rng.below 2 r) = 1%nat ->
  Augmentor.random_flip img angle r
  = (Augmentor.hflip img, (- angle)%Q, snd (Rng.below 2 r)).
Proof.
  intros Hflip. unfold Augmentor.random_flip.
  destruct (Rng.below 2 r) as [k r']. cbn [fst snd] in *.
  subst k. reflexivity.
Qed.

Lemma flip_negates_angle_witness :
  fst (Rng.below 2 (Rng.seeded Rng.lcg 1)) = 1%nat /\
  Augmentor.random_flip Examples.img0 (1 # 10) (Rng.seeded Rng.lcg 1)
  = (Augmentor.hflip Examples.img0, (- (1 # 10))%Q,
     snd (Rng.below 2 (Rng.seeded Rng.lcg 1))).
Proof.
  split; [vm_compute; reflexivity|].
  apply (flip_negates_angle Examples.img0 (1 # 10) (Rng.seeded Rng.lcg 1)).
  vm_compute; reflexivity.
Defined.

(** C8: two runs of the Augmentor on the same image, angle and flag, with
    streams that deliver the same draws from the same position (as two
    streams started from one seed do), return the same image and the same
    angle. *)
Theorem augment_deterministic
  (C : Augmentor.config) (img : Augmentor.image) (angle : Q)
  (is_training : bool) (r1 r2 : Rng.rng) :
  Rng.cursor r1 = Rng.cursor r2 ->
  (forall i, Rng.draws r1 i = Rng.draws r2 i) ->
  fst (Augmentor.augment C img angle is_training r1)
  = fst (Augmentor.augment C img angle is_training r2).
Proof.
  intros Hcursor Hdraws.
  destruct is_training; [|reflexivity].
  destruct r1 as [draws1 cursor1], r2 as [draws2 cursor2].
  cbn [Rng.draws Rng.cursor] in Hcursor, Hdraws. subst cursor2.
  cbv beta iota zeta delta
    [Augmentor.augment Augmentor.random_flip Augmentor.random_translate
     Augmentor.random_brightness Rng.below Rng.next Rng.draws Rng.cursor].
  rewrite (Hdraws cursor1).
  destruct (draws2 cursor1 mod 2 =? 1)%nat;
    cbn [fst]; rewrite !Hdraws; reflexivity.
Qed.

Lemma augment_deterministic_witness :
  fst (Augmentor.augment Examples.C0 Examples.img0 (1 # 10) true
         (Rng.seeded Rng.lcg 7))
  = fst (Augmentor.augment Examples.C0 Examples.img0 (1 # 10) true
           (Rng.seeded (fun s i => Rng.lcg s i) 7)).
Proof.
  apply (augment_deterministic Examples.C0 Examples.img0 (1 # 10) true
           (Rng.seeded Rng.lcg 7) (Rng.seeded (fun s i => Rng.lcg s i) 7)).
  - reflexivity.
  - intros i. reflexivity.
Defined.

(** C3, as the model has it: from arrays that are not empty and equally
    long, with every image readable, any number of calls of the Batch
    Generator succeeds, and every batch has exactly [batch_size] pairs whose
    images have the model input shape. *)
Theorem generator_yields_full_batches
  (C : Augmentor.config) (Wt : Generator.weights)
  (store : Generator.image_store) (image_paths : list Generator.views)
  (steering_angles : list Q) (is_training : bool)
  (batch_size calls : nat) (r : Rng.rng) :
  image_paths <> [] ->
  List.length steering_angles = List.length image_paths ->
  Forall (Generator.readable store) image_paths ->
  exists bs st',
    Generator.batches C Wt store image_paths steering_angles is_training
      batch_size calls (Generator.start r) = Py.Ok (bs, st') /\
    List.length bs = calls /\
    Forall (Generator.batch_ok C batch_size) bs.
Proof.
  intros Hsome Hlen Hread.
  destruct (batches_ok C Wt store image_paths steering_angles is_training
              Hsome Hlen Hread batch_size calls (Generator.start r))
    as (bs & st' & E & Hn & Hall & _).
  - constructor.
  - exists bs, st'. auto.
Qed.

Lemma generator_yields_full_batches_witness :
  exists bs st',
    Generator.batches Examples.C0 Examples.Wt0 Examples.store0
      [("c.jpg", "l.jpg", "r.jpg")] [1 # 10] true 2 3
      (Generator.start (Rng.seeded Rng.lcg 0)) = Py.Ok (bs, st') /\
    List.length bs = 3%nat /\
    Forall (Generator.batch_ok Examples.C0 2) bs.
Proof.
  apply (generator_yields_full_batches Examples.C0 Examples.Wt0
           Examples.store0 [("c.jpg", "l.jpg", "r.jpg")] [1 # 10] true 2 3
           (Rng.seeded Rng.lcg 0)).
  - discriminate.
  - reflexivity.
  - constructor; [|constructor].
    vm_compute. repeat split; discriminate.
Defined.

(** C3 fails on an image that cannot be read and on empty arrays: the first
    call ends with the error instead of a batch. *)
Lemma generator_stops_on_unreadable_image :
  Generator.batches Examples.C0 Examples.Wt0 (fun _ => None)
    [("c.jpg", "l.jpg", "r.jpg")] [1 # 10] false 2 1
    (Generator.start (Rng.seeded Rng.lcg 0))
  = Py.Raise (Py.FileNotFoundError "c.jpg") /\
  Generator.batches Examples.C0 Examples.Wt0 Examples.store0 [] [] false 2 1
    (Generator.start (Rng.seeded Rng.lcg 0))
  = Py.Raise Py.IndexError.
Proof. split; vm_compute; reflexivity. Qed.

(** ** Loading the data *)

Section DataFacts.
Import Py Data.

Lemma read_csv_missing (fs : file_system) (path : string) :
  fs path = None -> read_csv fs path = Raise (FileNotFoundError path).
Proof. intros H. unfold read_csv. now rewrite H. Qed.

Lemma load_data_propagates (L : Imports) (fs : file_system) (args : Cli.Args)
  (g : rng_state L) (e : exn) :
  read_csv fs (log_path args) = Raise e -> load_data L fs args g = Raise e.
Proof. intros H. unfold load_data. now rewrite H. Qed.

Lemma read_records_short (line : nat) (fields : list string) (rest : csv_file) :
  fields <> [] -> (List.length fields <= 7)%nat ->
  read_records line (fields :: rest)
  = (df <- read_records (S line) rest ;;
     Ok (mkRow (field fields 0) (field fields 1) (field fields 2)
               (field fields 3) (field fields 4) (field fields 5)
               (field fields 6) :: df)).
Proof.
  intros Hsome Hlen. cbn [read_records].
  destruct (7 <? List.length fields)%nat eqn:E.
  - apply Nat.ltb_lt in E. lia.
  - destruct fields; [now elim Hsome | reflexivity].
Qed.

End DataFacts.

(** C7, as the code has it: a missing log makes [load_data] fail with the
    reader's error, and whatever the reader raises [load_data] raises too,
    returning nothing; a record with fewer than seven fields is no error:
    the reader keeps it, with NaN in the missing fields. *)
Theorem load_data_fails_fast
  (L : Data.Imports) (fs : Data.file_system) (args : Cli.Args)
  (g : Data.rng_state L) :
  (fs (Data.log_path args) = None ->
   Data.load_data L fs args g
   = Py.Raise (Py.FileNotFoundError (Data.log_path args))) /\
  (forall e, Data.read_csv fs (Data.log_path args) = Py.Raise e ->
             Data.load_data L fs args g = Py.Raise e) /\
  (forall line fields rest,
     fields <> [] -> (List.length fields <= 7)%nat ->
     Data.read_records line (fields :: rest)
     = (df <- Data.read_records (S line) rest ;;
        Py.Ok (Data.mkRow (Data.field fields 0) (Data.field fields 1)
                 (Data.field fields 2) (Data.field fields 3)
                 (Data.field fields 4) (Data.field fields 5)
                 (Data.field fields 6) :: df))).
Proof.
  split; [|split].
  - intros Hmissing. apply load_data_propagates.
    now apply read_csv_missing.
  - intros e. apply load_data_propagates.
  - intros line fields rest. apply read_records_short.
Qed.

(** C7 fails on a record that stops early: the log of [fs0] has a record of
    four fields; the reader fills it up with NaN, and [load_data] returns
    the sample in the training set. *)
Lemma short_record_is_loaded :
  Data.read_csv Examples.fs0 "data/driving_log.csv"
  = Py.Ok
      [ Data.mkRow (Some "IMG/c1.jpg") (Some "IMG/l1.jpg") (Some "IMG/r1.jpg")
          (Some "0.1") (Some "0.9") (Some "0") (Some "30.1");
        Data.mkRow (Some "IMG/c2.jpg") (Some "IMG/l2.jpg") (Some "IMG/r2.jpg")
          (Some "-0.3") None None None;
        Data.mkRow (Some "IMG/c3.jpg") (Some "IMG/l3.jpg") (Some "IMG/r3.jpg")
          (Some "0") (Some "1") (Some "0") (Some "30.2") ] /\
  option_map fst
    (Py.returned
       (Data.load_data Examples.L0 Examples.fs0 Cli.defaults
          (Data.np_random_seed Examples.L0 0)))
  = Some
      ([(Some "IMG/c2.jpg", Some "IMG/l2.jpg", Some "IMG/r2.jpg");
        (Some "IMG/c1.jpg", Some "IMG/l1.jpg", Some "IMG/r1.jpg")],
       [(Some "IMG/c3.jpg", Some "IMG/l3.jpg", Some "IMG/r3.jpg")],
       [Some "-0.3"; Some "0.1"], [Some "0"]).
Proof. split; vm_compute; reflexivity. Qed.

(** C10: the split [load_data] returns in a run of the script depends on the
    contents of the log and on the test size alone: the generator state
    [load_data] starts from is the one [np.random.seed(0)] sets, whatever
    the state before, and the split is made with the permutation of
    [random_state=0]. *)
Theorem load_data_reproducible
  {W : Type} (L : Data.Imports) (K : Trainer.Keras W)
  (fsa fsb : Data.file_system) (args1 args2 : Cli.Args)
  (g1 g2 : Data.rng_state L) :
  fsa (Data.log_path args1) = fsb (Data.log_path args2) ->
  Cli.test_size args1 = Cli.test_size args2 ->
  Py.returned (Data.load_data L fsa args1 (Data.np_random_seed L 0))
  = Py.returned (Data.load_data L fsb args2 (Data.np_random_seed L 0)) /\
  (forall cl d, Trainer.run L K fsa cl g1 d = Trainer.run L K fsa cl g2 d).
Proof.
  intros Hlog Hsize. split; [|reflexivity].
  unfold Data.load_data, Data.read_csv.
  rewrite Hlog, Hsize.
  destruct (fsb (Data.log_path args2)) as [records|]; reflexivity.
Qed.

Lemma load_data_reproducible_witness :
  Py.returned
    (Data.load_data Examples.L0 Examples.fs0 Cli.defaults
       (Data.np_random_seed Examples.L0 0))
  = Py.returned
      (Data.load_data Examples.L0 Examples.fs1 Examples.other_run
         (Data.np_random_seed Examples.L0 0)) /\
  (forall cl d,
     Trainer.run Examples.L0 Examples.K0 Examples.fs0 cl
       (Rng.seeded Rng.lcg 5) d
     = Trainer.run Examples.L0 Examples.K0 Examples.fs0 cl
         (Rng.seeded Rng.lcg 6) d).
Proof.
  apply (load_data_reproducible Examples.L0 Examples.K0 Examples.fs0
           Examples.fs1 Cli.defaults Examples.other_run
           (Rng.seeded Rng.lcg 5) (Rng.seeded Rng.lcg 6)).
  - vm_compute. reflexivity.
  - reflexivity.
Defined.

(** ** Training *)

Section TrainerFacts.
Import Trainer.
Context {W : Type}.

Lemma save_contents (path : string) (w : W) (d : disk W) :
  contents (save path w d) path = Some w.
Proof. unfold save. cbn [contents]. now rewrite String.eqb_refl. Qed.

(** With best-only saving the callback leaves the disk alone unless the
    validation loss is below the best one so far. *)
Lemma on_epoch_end_no_improvement
  (cp : ModelCheckpoint) (best : option Q) (current : Q) (w : W) (d : disk W) :
  cp_save_best_only cp = true -> monitor_op current best = false ->
  on_epoch_end cp best current w d = (best, d).
Proof. intros Hbest Hop. unfold on_epoch_end. now rewrite Hbest, Hop. Qed.

(** Whatever the flag, [train_model] ends with the last weights of the fit
    loop in [model.h5]. *)
Lemma train_model_saves_last_weights
  (K : Keras W) (w : W) (args : Cli.Args) (X_train X_valid : list Data.paths)
  (y_train y_valid : list Data.cell) (d : disk W) :
  contents (snd (train_model K w args X_train X_valid y_train y_valid d))
    "model.h5"
  = Some (fst (fit K (train_model_fit args X_train X_valid y_train y_valid)
                 w d)).
Proof.
  unfold train_model.
  destruct (fit K (train_model_fit args X_train X_valid y_train y_valid) w d)
    as [w' d'].
  cbn [fst snd]. apply save_contents.
Qed.

End TrainerFacts.

(** C1, at two epochs with validation losses 1 and 2 and best-only saving
    on: after the fit loop [model.h5] holds the weights of the first epoch,
    the second epoch being no improvement; [train_model] then writes the
    weights of the second epoch over them. *)
Theorem final_save_replaces_best_checkpoint :
  Cli.save_best_only Examples.two_epochs = true /\
  Trainer.monitor_op 2 (Some 1%Q) = false /\
  Trainer.contents
    (snd (Trainer.fit Examples.K0
            (Trainer.train_model_fit Examples.two_epochs [] [] [] [])
            0%nat Trainer.empty_disk)) "model.h5" = Some 1%nat /\
  Trainer.contents
    (snd (Trainer.train_model Examples.K0 0%nat Examples.two_epochs
            [] [] [] [] Trainer.empty_disk)) "model.h5" = Some 2%nat /\
  Trainer.written
    (snd (Trainer.train_model Examples.K0 0%nat Examples.two_epochs
            [] [] [] [] Trainer.empty_disk))
  = [("model.h5", 1%nat); ("model.h5", 2%nat)].
Proof.
  split; [reflexivity|].
  split; [reflexivity|].
  split; [vm_compute; reflexivity|].
  split.
  - rewrite train_model_saves_last_weights. vm_compute. reflexivity.
  - vm_compute. reflexivity.
Qed.

(** C2, as the code has it: [train_model] builds the validation generator
    with [is_training] set, exactly as the training generator; in that mode
    the Augmentor's output follows the draws of the stream (two streams,
    two outputs), while without it the output is the same for every
    stream. *)
Theorem validation_generator_runs_in_training_mode
  (args : Cli.Args) (X_train X_valid : list Data.paths)
  (y_train y_valid : list Data.cell) :
  Trainer.fit_validation_data
    (Trainer.train_model_fit args X_train X_valid y_train y_valid)
  = Trainer.mkGenerator (Cli.data_dir args) X_valid y_valid
      (Cli.batch_size args) true /\
  Trainer.g_is_training
    (Trainer.fit_validation_data
       (Trainer.train_model_fit args X_train X_valid y_train y_valid))
  = Trainer.g_is_training
      (Trainer.fit_x
         (Trainer.train_model_fit args X_train X_valid y_train y_valid)) /\
  fst (Augmentor.augment Examples.C0 Examples.img0 (1 # 10) true
         (Rng.seeded Rng.lcg 1))
  <> fst (Augmentor.augment Examples.C0 Examples.img0 (1 # 10) true
            (Rng.seeded Rng.lcg 2)) /\
  (forall C img angle r1 r2,
     fst (Augmentor.augment C img angle false r1)
     = fst (Augmentor.augment C img angle false r2)).
Proof.
  split; [reflexivity|].
  split; [reflexivity|].
  split.
  - intros H. vm_compute in H. discriminate H.
  - intros C img angle r1 r2. reflexivity.
Qed.

(** * Further properties of the script *)

(** ** The command line, continued *)

Section CliMore.
Import PyStr Cli.

Lemma set_option_raises_inv (a : Args) (f : flag) (v : string) :
  set_option a f v = Raises -> convertible f v = false.
Proof.
  intros H. destruct (convertible f v) eqn:E; [|reflexivity].
  destruct (set_option_converts a f v E) as (a' & Ha'). congruence.
Qed.

Lemma set_option_stores (a a' : Args) (f : flag) (v : string) :
  set_option a f v = Value a' -> convert f v = Value (get_dest f a').
Proof.
  destruct f; cbn [set_option convert type_str type_s2b get_dest];
    try (destruct (type_float v); [|discriminate]);
    try (destruct (type_int v); [|discriminate]);
    intros H; injection H as <-; reflexivity.
Qed.

Lemma set_option_frame (a a' : Args) (f f' : flag) (v : string) :
  set_option a f v = Value a' -> f' <> f -> get_dest f' a' = get_dest f' a.
Proof.
  destruct f; cbn [set_option type_str type_s2b];
    try (destruct (type_float v); [|discriminate]);
    try (destruct (type_int v); [|discriminate]);
    intros H Hne; injection H as <-;
    destruct f'; try reflexivity; now elim Hne.
Qed.

Lemma parse_from_frame (cl : command_line) (f : flag) :
  forall a a' : Args,
    parse_from a cl = Namespace a' ->
    Forall (fun o => fst o <> f) cl ->
    get_dest f a' = get_dest f a.
Proof.
  induction cl as [|[f1 v1] cl IH]; intros a a' Hparse Hnot;
    cbn [parse_from] in Hparse.
  - now injection Hparse as <-.
  - inversion Hnot as [|? ? Hne Hrest]; subst. cbn [fst] in Hne.
    destruct (set_option a f1 v1) as [a1|] eqn:Hset; [|discriminate].
    rewrite (IH a1 a' Hparse Hrest).
    eapply set_option_frame; [eassumption | congruence].
Qed.

Lemma parse_from_app (cl1 cl2 : command_line) :
  forall a a' : Args,
    parse_from a (cl1 ++ cl2)%list = Namespace a' ->
    exists a1, parse_from a cl1 = Namespace a1 /\
               parse_from a1 cl2 = Namespace a'.
Proof.
  induction cl1 as [|[f v] cl1 IH]; intros a a' H; cbn [List.app parse_from] in *.
  - eauto.
  - destruct (set_option a f v) as [a1|]; [now apply IH | discriminate].
Qed.

Lemma parse_from_error (cl : command_line) (f : flag) (v : string) :
  forall a : Args,
    parse_from a cl = UsageError f v ->
    exists cl1 cl2,
      cl = (cl1 ++ (f, v) :: cl2)%list /\
      Forall (fun o => convertible (fst o) (snd o) = true) cl1 /\
      convertible f v = false.
Proof.
  induction cl as [|[f1 v1] cl IH]; intros a H; cbn [parse_from] in H.
  - discriminate.
  - destruct (set_option a f1 v1) as [a1|] eqn:Hset.
    + destruct (IH a1 H) as (cl1 & cl2 & -> & Hall & Hbad).
      exists ((f1, v1) :: cl1), cl2. repeat split; [|assumption].
      constructor; [|assumption]. cbn [fst snd].
      destruct (convertible f1 v1) eqn:E; [reflexivity|].
      rewrite (set_option_raises a f1 v1 E) in Hset. discriminate.
    + injection H as <- <-. exists [], cl. repeat split.
      * constructor.
      * eapply set_option_raises_inv; eassumption.
Qed.

Lemma lower_char_twice (c : ascii) : lower_char (lower_char c) = lower_char c.
Proof. destruct c as [[] [] [] [] [] [] [] []]; reflexivity. Qed.

Lemma lower_twice (s : string) : lower (lower s) = lower s.
Proof.
  induction s as [|c s IH]; cbn [lower]; [reflexivity|].
  now rewrite lower_char_twice, IH.
Qed.

Lemma lower_append (s t : string) : lower (s ++ t) = lower s ++ lower t.
Proof.
  induction s as [|c s IH]; cbn [lower String.append]; [reflexivity|].
  now rewrite IH.
Qed.

Lemma last_char_append (s : string) (c : ascii) :
  last_char (s ++ String c "") = Some c.
Proof.
  induction s as [|c1 s IH]; [reflexivity|].
  cbn [String.append last_char].
  destruct (s ++ String c "") eqn:E; [|exact IH].
  destruct s; discriminate E.
Qed.

(** White space is left alone by [lower] and ends none of the words. *)
Lemma space_is_no_word_char (c : ascii) :
  is_space c = true ->
  lower_char c = c /\ c <> "t"%char /\ c <> "y"%char /\ c <> "1"%char /\
  c <> "e"%char /\ c <> "s"%char.
Proof.
  destruct c as [[] [] [] [] [] [] [] []]; intros H;
    try discriminate H; repeat split; discriminate.
Qed.

End CliMore.

(** X1: [parse_args] ends in a usage error for option [f] and value [v]
    exactly when [(f, v)] is the first occurrence on the command line whose
    value the option's type cannot convert. *)
Theorem usage_error_is_first_unconvertible
  (cl : Cli.command_line) (f : Cli.flag) (v : string) :
  Cli.parse_args cl = Cli.UsageError f v <->
  exists cl1 cl2,
    cl = (cl1 ++ (f, v) :: cl2)%list /\
    Forall (fun o => Cli.convertible (fst o) (snd o) = true) cl1 /\
    Cli.convertible f v = false.
Proof.
  unfold Cli.parse_args. split.
  - apply parse_from_error.
  - intros (cl1 & cl2 & -> & Hall & Hbad). now apply parse_from_rejects.
Qed.

(** X2: when an option occurs several times, the last occurrence decides:
    after a successful parse the option's [dest] holds the converted value
    of the occurrence that no later occurrence of the option follows. *)
Theorem last_occurrence_wins
  (cl1 cl2 : Cli.command_line) (f : Cli.flag) (v : string) (a : Cli.Args) :
  Cli.parse_args (cl1 ++ (f, v) :: cl2)%list = Cli.Namespace a ->
  Forall (fun o => fst o <> f) cl2 ->
  Cli.convert f v = Cli.Value (Cli.get_dest f a).
Proof.
  unfold Cli.parse_args. intros Hparse Hlater.
  destruct (parse_from_app cl1 ((f, v) :: cl2) _ _ Hparse)
    as (a1 & _ & Htail).
  cbn [Cli.parse_from] in Htail.
  destruct (Cli.set_option a1 f v) as [a2|] eqn:Hset; [|discriminate].
  rewrite (parse_from_frame cl2 f a2 a Htail Hlater).
  eapply set_option_stores; eassumption.
Qed.

Lemma last_occurrence_wins_witness :
  Cli.convert Cli.Opt_b "16"
  = Cli.Value
      (Cli.get_dest Cli.Opt_b
         (Cli.mkArgs "data" (PyStr.FDec 2 (-1)) (PyStr.FDec 25 (-2)) 1 10 16
            false (PyStr.FDec 10 (-5)))).
Proof.
  apply (last_occurrence_wins [(Cli.Opt_b, "8")] [(Cli.Opt_o, "no")]
           Cli.Opt_b "16").
  - vm_compute. reflexivity.
  - constructor; [discriminate | constructor].
Defined.

(** X3: an option that does not occur on the command line keeps its
    default, whatever the other options are given. *)
Theorem absent_option_keeps_default
  (cl : Cli.command_line) (f : Cli.flag) (a : Cli.Args) :
  Cli.parse_args cl = Cli.Namespace a ->
  Forall (fun o => fst o <> f) cl ->
  Cli.get_dest f a = Cli.get_dest f Cli.defaults.
Proof.
  unfold Cli.parse_args. intros Hparse Habsent.
  eapply parse_from_frame; eassumption.
Qed.

Lemma absent_option_keeps_default_witness :
  Cli.get_dest Cli.Opt_o
    (Cli.mkArgs "run2" (PyStr.FDec 2 (-1)) (PyStr.FDec 25 (-2)) 3 10 40
       true (PyStr.FDec 10 (-5)))
  = Cli.get_dest Cli.Opt_o Cli.defaults.
Proof.
  apply (absent_option_keeps_default
           [(Cli.Opt_d, "run2"); (Cli.Opt_n, "3")] Cli.Opt_o).
  - vm_compute. reflexivity.
  - repeat constructor; discriminate.
Defined.

(** X4: [s2b] ignores the case of its argument but strips nothing: a value
    with white space before or after it is read as false. *)
Theorem s2b_case_and_space (s : string) :
  Cli.s2b (PyStr.lower s) = Cli.s2b s /\
  (forall c, PyStr.is_space c = true ->
             Cli.s2b (String c s) = false /\
             Cli.s2b (s ++ String c "") = false).
Proof.
  split.
  - unfold Cli.s2b. now rewrite lower_twice.
  - intros c Hspace.
    destruct (space_is_no_word_char c Hspace)
      as (Hlow & Ht & Hy & H1 & He & Hs).
    split.
    + unfold Cli.s2b. cbn [PyStr.lower]. rewrite Hlow.
      rewrite !orb_false_iff. repeat split;
        apply String.eqb_neq; intros E; injection E as E _; congruence.
    + unfold Cli.s2b. rewrite lower_append. cbn [PyStr.lower]. rewrite Hlow.
      rewrite !orb_false_iff. repeat split;
        apply String.eqb_neq; intros E;
        apply (f_equal PyStr.last_char) in E;
        rewrite last_char_append in E; cbn in E; congruence.
Qed.

(** ** Loading the data, continued *)

Section DataMore.
Import Py Data.

Lemma take_rows_paired {R A B : Type} (fa : R -> A) (fb : R -> B)
  (df : list R) (idx : list nat) :
  forall (xs : list A) (ys : list B),
    take_rows (map fa df) idx = Ok xs ->
    take_rows (map fb df) idx = Ok ys ->
    Forall2 (fun x y => exists r, In r df /\ x = fa r /\ y = fb r) xs ys.
Proof.
  induction idx as [|i idx IH]; intros xs ys Hx Hy; cbn [take_rows] in *.
  - injection Hx as <-. injection Hy as <-. constructor.
  - rewrite nth_error_map in Hx, Hy.
    destruct (nth_error df i) as [r|] eqn:Hr; cbn [option_map] in *;
      [|discriminate].
    destruct (take_rows (map fa df) idx) as [xs'|]; [|discriminate].
    destruct (take_rows (map fb df) idx) as [ys'|]; [|discriminate].
    cbn [bind] in *. injection Hx as <-. injection Hy as <-.
    constructor; [|now apply IH].
    exists r. split; [eapply nth_error_In; eassumption | auto].
Qed.

Lemma n_test_of_out_of_range (m e : Z) (n : nat) :
  (m <= 0 \/ 0 <= e \/ 10 ^ (- e) <= m)%Z ->
  n_test_of (PyStr.FDec m e) n = Raise (ValueError "test_size").
Proof.
  intros H. unfold n_test_of.
  destruct (m <=? 0)%Z eqn:E1; [reflexivity|].
  destruct (0 <=? e)%Z eqn:E2; [reflexivity|].
  destruct (10 ^ (- e) <=? m)%Z eqn:E3; [reflexivity|].
  apply Z.leb_gt in E1, E2, E3. lia.
Qed.

End DataMore.

(** X5: the split keeps every steering angle with the image paths of its
    own row: position by position, the paths in [X_train] and the angle in
    [y_train] come from one row of the balanced frame, and so do those of
    [X_valid] and [y_valid]. *)
Theorem load_data_keeps_rows_together
  (L : Data.Imports) (fs : Data.file_system) (args : Cli.Args)
  (g g' : Data.rng_state L)
  (X_train X_valid : list Data.paths) (y_train y_valid : list Data.cell) :
  Data.load_data L fs args g
  = Py.Ok (X_train, X_valid, y_train, y_valid, g') ->
  exists df0 df,
    Data.read_csv fs (Data.log_path args) = Py.Ok df0 /\
    Data.balanceData L df0 false g = Py.Ok (df, g') /\
    Forall2 (fun x y => exists r, In r df /\
               x = (Data.center r, Data.left r, Data.right r) /\
               y = Data.steering r) X_train y_train /\
    Forall2 (fun x y => exists r, In r df /\
               x = (Data.center r, Data.left r, Data.right r) /\
               y = Data.steering r) X_valid y_valid.
Proof.
  unfold Data.load_data. intros H.
  destruct (Data.read_csv fs (Data.log_path args)) as [df0|] eqn:Hread;
    [|discriminate].
  cbn [Py.bind] in H.
  destruct (Data.balanceData L df0 false g) as [[df g1]|] eqn:Hbal;
    [|discriminate].
  cbn [Py.bind] in H.
  unfold Data.train_test_split in H.
  set (fa := fun r : Data.row => (Data.center r, Data.left r, Data.right r))
    in *.
  set (n := List.length (map fa df)) in *.
  destruct (Data.n_test_of (Cli.test_size args) n) as [n_test|];
    [|discriminate].
  cbn [Py.bind] in H.
  destruct (n - n_test =? 0)%nat; [discriminate|].
  set (train := firstn (n - n_test) (skipn n_test (Data.permutation0 L n)))
    in *.
  set (test := firstn n_test (Data.permutation0 L n)) in *.
  destruct (Data.take_rows (map fa df) train) as [xt|] eqn:Hxt;
    [|discriminate].
  destruct (Data.take_rows (map fa df) test) as [xv|] eqn:Hxv;
    [|discriminate].
  destruct (Data.take_rows (map Data.steering df) train) as [yt|] eqn:Hyt;
    [|discriminate].
  destruct (Data.take_rows (map Data.steering df) test) as [yv|] eqn:Hyv;
    [|discriminate].
  cbn [Py.bind] in H.
  injection H as <- <- <- <- <-.
  exists df0, df.
  split; [reflexivity|]. split; [exact Hbal|].
  split; eapply take_rows_paired; eassumption.
Qed.

Lemma load_data_keeps_rows_together_witness :
  exists df0 df,
    Data.read_csv Examples.fs0 (Data.log_path Cli.defaults) = Py.Ok df0 /\
    Data.balanceData Examples.L0 df0 false (Rng.seeded Rng.lcg 0)
    = Py.Ok (df, Rng.mkRng (Rng.lcg 0) 3) /\
    Forall2 (fun x y => exists r, In r df /\
               x = (Data.center r, Data.left r, Data.right r) /\
               y = Data.steering r)
      [(Some "IMG/c2.jpg", Some "IMG/l2.jpg", Some "IMG/r2.jpg");
       (Some "IMG/c1.jpg", Some "IMG/l1.jpg", Some "IMG/r1.jpg")]
      [Some "-0.3"; Some "0.1"] /\
    Forall2 (fun x y => exists r, In r df /\
               x = (Data.center r, Data.left r, Data.right r) /\
               y = Data.steering r)
      [(Some "IMG/c3.jpg", Some "IMG/l3.jpg", Some "IMG/r3.jpg")]
      [Some "0"].
Proof.
  apply (load_data_keeps_rows_together Examples.L0 Examples.fs0 Cli.defaults
           (Rng.seeded Rng.lcg 0) (Rng.mkRng (Rng.lcg 0) 3)).
  reflexivity.
Defined.

(** X6: the parser does not check the range of the test size: a value that
    is not strictly between 0 and 1 is parsed, the log is read and balanced,
    and only then the split refuses it; [main] ends with that [ValueError]
    before the model is built. *)
Theorem test_size_is_checked_after_loading
  {W : Type} (L : Data.Imports) (K : Trainer.Keras W) (fs : Data.file_system)
  (cl : Cli.command_line) (args : Cli.Args) (g g' : Data.rng_state L)
  (d : Trainer.disk W) (df0 df : Data.DataFrame) (m e : Z) :
  Cli.parse_args cl = Cli.Namespace args ->
  Data.read_csv fs (Data.log_path args) = Py.Ok df0 ->
  Data.balanceData L df0 false g = Py.Ok (df, g') ->
  Cli.test_size args = PyStr.FDec m e ->
  (m <= 0 \/ 0 <= e \/ 10 ^ (- e) <= m)%Z ->
  Data.load_data L fs args g = Py.Raise (Py.ValueError "test_size") /\
  Trainer.main L K fs cl g d
  = ([Trainer.Parsed; Trainer.PrintedParameters],
     Trainer.Uncaught (Py.ValueError "test_size")).
Proof.
  intros Hparse Hread Hbal Hsize Hrange.
  assert (Data.load_data L fs args g = Py.Raise (Py.ValueError "test_size"))
    as Hload.
  { unfold Data.load_data. rewrite Hread. cbn [Py.bind].
    rewrite Hbal. cbn [Py.bind].
    unfold Data.train_test_split. rewrite Hsize.
    now rewrite n_test_of_out_of_range. }
  split; [exact Hload|].
  unfold Trainer.main. now rewrite Hparse, Hload.
Qed.

Lemma test_size_is_checked_after_loading_witness :
  Data.load_data Examples.L0 Examples.fs0
    (Cli.mkArgs "data" (PyStr.FDec 15 (-1)) (PyStr.FDec 25 (-2)) 1 10 40
       true (PyStr.FDec 10 (-5)))
    (Rng.seeded Rng.lcg 0)
  = Py.Raise (Py.ValueError "test_size") /\
  Trainer.main Examples.L0 Examples.K0 Examples.fs0 [(Cli.Opt_t, "1.5")]
    (Rng.seeded Rng.lcg 0) Trainer.empty_disk
  = ([Trainer.Parsed; Trainer.PrintedParameters],
     Trainer.Uncaught (Py.ValueError "test_size")).
Proof.
  apply (test_size_is_checked_after_loading Examples.L0 Examples.K0
           Examples.fs0 [(Cli.Opt_t, "1.5")]
           (Cli.mkArgs "data" (PyStr.FDec 15 (-1)) (PyStr.FDec 25 (-2)) 1 10
              40 true (PyStr.FDec 10 (-5)))
           (Rng.seeded Rng.lcg 0) (Rng.mkRng (Rng.lcg 0) 3)
           Trainer.empty_disk
           [ Data.mkRow (Some "IMG/c1.jpg") (Some "IMG/l1.jpg")
               (Some "IMG/r1.jpg") (Some "0.1") (Some "0.9") (Some "0")
               (Some "30.1");
             Data.mkRow (Some "IMG/c2.jpg") (Some "IMG/l2.jpg")
               (Some "IMG/r2.jpg") (Some "-0.3") None None None;
             Data.mkRow (Some "IMG/c3.jpg") (Some "IMG/l3.jpg")
               (Some "IMG/r3.jpg") (Some "0") (Some "1") (Some "0")
               (Some "30.2") ]
           [ Data.mkRow (Some "IMG/c1.jpg") (Some "IMG/l1.jpg")
               (Some "IMG/r1.jpg") (Some "0.1") (Some "0.9") (Some "0")
               (Some "30.1");
             Data.mkRow (Some "IMG/c2.jpg") (Some "IMG/l2.jpg")
               (Some "IMG/r2.jpg") (Some "-0.3") None None None;
             Data.mkRow (Some "IMG/c3.jpg") (Some "IMG/l3.jpg")
               (Some "IMG/r3.jpg") (Some "0") (Some "1") (Some "0")
               (Some "30.2") ]
           15 (-1)).
  - reflexivity.
  - reflexivity.
  - reflexivity.
  - reflexivity.
  - right. right. vm_compute. discriminate.
Defined.

(** ** Training, continued *)

Section TrainerMore.
Import Trainer.
Context {W : Type}.
Variable K : Keras W.
Variable call : fit_call.
Variable cp : ModelCheckpoint.

Lemma save_other_path (path p : string) (w : W) (d : disk W) :
  p <> path -> contents (save path w d) p = contents d p.
Proof.
  intros Hne. unfold save. cbn [contents].
  destruct (p =? path) eqn:E; [|reflexivity].
  apply String.eqb_eq in E. contradiction.
Qed.

Lemma on_epoch_end_cases (best : option Q) (current : Q) (w : W) (d : disk W) :
  snd (on_epoch_end cp best current w d) = d \/
  snd (on_epoch_end cp best current w d) = save (filepath cp) w d.
Proof.
  unfold on_epoch_end.
  destruct (cp_save_best_only cp); [destruct (monitor_op current best)|];
    cbn [snd]; auto.
Qed.

Lemma single_callback (best : option Q) (current : Q) (w : W) (d : disk W) :
  callbacks_on_epoch_end [(cp, best)] current w d
  = ([(cp, fst (on_epoch_end cp best current w d))],
     snd (on_epoch_end cp best current w d)).
Proof.
  cbn [callbacks_on_epoch_end].
  now destruct (on_epoch_end cp best current w d).
Qed.

Lemma last_nonempty (x : W) (l : list W) (d1 d2 : W) :
  last (x :: l) d1 = last (x :: l) d2.
Proof.
  revert x. induction l as [|y l IH]; intros x; [reflexivity|].
  change (last (y :: l) d1 = last (y :: l) d2). apply IH.
Qed.

(** The weights the loop returns are those of its last epoch. *)
Lemma fit_loop_returns_last (todo : nat) :
  forall (k : nat) (cps : list (ModelCheckpoint * option Q)) (w : W)
         (d : disk W),
    fst (fit_epochs_from K call todo k cps w d)
    = last (map fst (epoch_results K call todo k w)) w.
Proof.
  induction todo as [|todo IH]; intros k cps w d;
    cbn [fit_epochs_from epoch_results]; [reflexivity|].
  destruct (run_epoch K call k w) as [w' l].
  destruct (callbacks_on_epoch_end cps l w' d) as [cps' d'].
  rewrite IH. cbn [map fst].
  destruct (epoch_results K call todo (S k) w') as [|r rest];
    [reflexivity|].
  cbn [map]. change (last (w' :: fst r :: map fst rest) w)
    with (last (fst r :: map fst rest) w).
  apply last_nonempty.
Qed.

(** The loop touches no file but the checkpoint's, and writes it at most
    once per epoch. *)
Lemma fit_loop_writes (todo : nat) :
  forall (k : nat) (best : option Q) (w : W) (d : disk W),
    (forall p, p <> filepath cp ->
       contents (snd (fit_epochs_from K call todo k [(cp, best)] w d)) p
       = contents d p) /\
    exists ws,
      written (snd (fit_epochs_from K call todo k [(cp, best)] w d))
      = (written d ++ map (fun x => (filepath cp, x)) ws)%list /\
      (List.length ws <= todo)%nat.
Proof.
  induction todo as [|todo IH]; intros k best w d; cbn [fit_epochs_from].
  - split; [reflexivity|]. exists []. cbn. now rewrite app_nil_r.
  - destruct (run_epoch K call k w) as [w' l].
    rewrite single_callback.
    destruct (IH (S k) (fst (on_epoch_end cp best l w' d)) w'
                (snd (on_epoch_end cp best l w' d))) as (Hframe & ws & Hlog & Hlen).
    destruct (on_epoch_end_cases best l w' d) as [E|E]; rewrite E in *.
    + split; [assumption|]. exists ws. split; [assumption | lia].
    + split.
      * intros p Hp. rewrite (Hframe p Hp). now apply save_other_path.
      * exists (w' :: ws). split; [|cbn [List.length]; lia].
        rewrite Hlog. unfold save. cbn [written map].
        now rewrite <- app_assoc.
Qed.

(** Without best-only saving every epoch is written. *)
Lemma fit_loop_writes_all (todo : nat) :
  cp_save_best_only cp = false ->
  forall (k : nat) (best : option Q) (w : W) (d : disk W),
    written (snd (fit_epochs_from K call todo k [(cp, best)] w d))
    = (written d
       ++ map (fun r => (filepath cp, fst r)) (epoch_results K call todo k w))%list.
Proof.
  intros Hall.
  induction todo as [|todo IH]; intros k best w d;
    cbn [fit_epochs_from epoch_results].
  - cbn. now rewrite app_nil_r.
  - destruct (run_epoch K call k w) as [w' l].
    rewrite single_callback, IH.
    unfold on_epoch_end. rewrite Hall. cbn [snd save written map fst].
    now rewrite <- app_assoc.
Qed.

Lemma best_kept_step (seen : list (W * Q)) (best : option Q) (d : disk W)
  (w' : W) (l' : Q) :
  cp_save_best_only cp = true ->
  best_kept cp seen best d ->
  best_kept cp (seen ++ [(w', l')]) (fst (on_epoch_end cp best l' w' d))
    (snd (on_epoch_end cp best l' w' d)).
Proof.
  intros Hbest Hinv. unfold on_epoch_end. rewrite Hbest.
  destruct best as [l|]; cbn [monitor_op].
  - destruct Hinv as (before & w & after & -> & Hbefore & Hafter & Hfile).
    destruct (Qle_bool l l') eqn:E; cbn [negb fst snd best_kept].
    + apply Qle_bool_iff in E.
      exists before, w, (after ++ [(w', l')])%list.
      repeat split; try assumption.
      * now rewrite <- app_assoc.
      * apply Forall_app. split; [assumption|]. now repeat constructor.
    + assert (l' < l)%Q as Hlt.
      { apply Qnot_le_lt. intros Hle. apply Qle_bool_iff in Hle. congruence. }
      exists (before ++ (w, l) :: after)%list, w', [].
      repeat split.
      * apply Forall_app. split.
        -- eapply Forall_impl; [|exact Hbefore]. intros r Hr.
           eapply Qlt_trans; eassumption.
        -- constructor; [exact Hlt|].
           eapply Forall_impl; [|exact Hafter]. intros r Hr.
           eapply Qlt_le_trans; eassumption.
      * constructor.
      * apply save_contents.
  - cbn [best_kept] in Hinv. subst seen. cbn [fst snd best_kept].
    exists [], w', []. repeat split; try constructor.
    apply save_contents.
Qed.

Lemma fit_loop_keeps_best (todo : nat) :
  cp_save_best_only cp = true ->
  forall (k : nat) (best : option Q) (w : W) (d : disk W)
         (seen : list (W * Q)),
    best_kept cp seen best d ->
    exists best',
      best_kept cp (seen ++ epoch_results K call todo k w) best'
        (snd (fit_epochs_from K call todo k [(cp, best)] w d)).
Proof.
  intros Hbest.
  induction todo as [|todo IH]; intros k best w d seen Hinv;
    cbn [fit_epochs_from epoch_results].
  - exists best. now rewrite app_nil_r.
  - destruct (run_epoch K call k w) as [w' l'].
    rewrite single_callback.
    destruct (IH (S k) _ w' _ _ (best_kept_step seen best d w' l' Hbest Hinv))
      as (best' & Hkept).
    exists best'. now rewrite <- app_assoc in Hkept.
Qed.

End TrainerMore.

(** X7: [train_model] changes no file but [model.h5], and writes that file
    at least once and at most once per epoch plus once at the end. *)
Theorem train_model_touches_only_model_h5
  {W : Type} (K : Trainer.Keras W) (w : W) (args : Cli.Args)
  (X_train X_valid : list Data.paths) (y_train y_valid : list Data.cell)
  (d : Trainer.disk W) :
  (forall p, p <> "model.h5" ->
     Trainer.contents
       (snd (Trainer.train_model K w args X_train X_valid y_train y_valid d)) p
     = Trainer.contents d p) /\
  exists ws,
    Trainer.written
      (snd (Trainer.train_model K w args X_train X_valid y_train y_valid d))
    = (Trainer.written d ++ map (fun x => ("model.h5", x)) ws)%list /\
    (1 <= List.length ws <= Z.to_nat (Cli.nb_epoch args) + 1)%nat.
Proof.
  unfold Trainer.train_model, Trainer.fit.
  set (call := Trainer.train_model_fit args X_train X_valid y_train y_valid).
  change (Trainer.fit_callbacks call) with [Trainer.checkpoint args].
  change (Trainer.fit_epochs call) with (Cli.nb_epoch args).
  cbn [map].
  destruct (fit_loop_writes K call (Trainer.checkpoint args)
              (Z.to_nat (Cli.nb_epoch args)) 0 None w d)
    as (Hframe & ws & Hlog & Hlen).
  destruct (Trainer.fit_epochs_from K call (Z.to_nat (Cli.nb_epoch args)) 0
              [(Trainer.checkpoint args, None)] w d) as [w' d'].
  cbn [fst snd Trainer.checkpoint Trainer.filepath] in *.
  split.
  - intros p Hp. rewrite save_other_path by assumption. now apply Hframe.
  - exists (ws ++ [w'])%list. split.
    + unfold Trainer.save. cbn [Trainer.written]. rewrite Hlog.
      now rewrite map_app, app_assoc.
    + rewrite length_app. cbn [List.length]. lia.
Qed.

(** X8: without best-only saving, [train_model] writes [model.h5] after
    every epoch with the weights of that epoch, in order, and once more at
    the end with the weights it returns. *)
Theorem train_model_writes_every_epoch
  {W : Type} (K : Trainer.Keras W) (w : W) (args : Cli.Args)
  (X_train X_valid : list Data.paths) (y_train y_valid : list Data.cell)
  (d : Trainer.disk W) :
  Cli.save_best_only args = false ->
  Trainer.written
    (snd (Trainer.train_model K w args X_train X_valid y_train y_valid d))
  = (Trainer.written d
     ++ map (fun r => ("model.h5", fst r))
          (Trainer.epoch_results K
             (Trainer.train_model_fit args X_train X_valid y_train y_valid)
             (Z.to_nat (Cli.nb_epoch args)) 0 w)
     ++ [("model.h5",
          fst (Trainer.train_model K w args X_train X_valid y_train
                 y_valid d))])%list.
Proof.
  intros Hall.
  unfold Trainer.train_model, Trainer.fit.
  set (call := Trainer.train_model_fit args X_train X_valid y_train y_valid).
  change (Trainer.fit_callbacks call) with [Trainer.checkpoint args].
  change (Trainer.fit_epochs call) with (Cli.nb_epoch args).
  cbn [map].
  pose proof (fit_loop_writes_all K call (Trainer.checkpoint args)
                (Z.to_nat (Cli.nb_epoch args)) Hall 0 None w d) as Hlog.
  destruct (Trainer.fit_epochs_from K call (Z.to_nat (Cli.nb_epoch args)) 0
              [(Trainer.checkpoint args, None)] w d) as [w' d'].
  cbn [fst snd Trainer.checkpoint Trainer.filepath] in *.
  unfold Trainer.save. cbn [Trainer.written]. rewrite Hlog.
  now rewrite <- app_assoc.
Qed.

Lemma train_model_writes_every_epoch_witness :
  Trainer.written
    (snd (Trainer.train_model Examples.K0 0%nat Examples.other_run
            [] [] [] [] Trainer.empty_disk))
  = (Trainer.written Trainer.empty_disk
     ++ map (fun r => ("model.h5", fst r))
          (Trainer.epoch_results Examples.K0
             (Trainer.train_model_fit Examples.other_run [] [] [] [])
             (Z.to_nat (Cli.nb_epoch Examples.other_run)) 0 0%nat)
     ++ [("model.h5",
          fst (Trainer.train_model Examples.K0 0%nat Examples.other_run
                 [] [] [] [] Trainer.empty_disk))])%list.
Proof.
  apply (train_model_writes_every_epoch Examples.K0 0%nat Examples.other_run
           [] [] [] [] Trainer.empty_disk).
  reflexivity.
Defined.

(** X9: with best-only saving and at least one epoch, the fit loop leaves
    in [model.h5] the weights of the earliest epoch with the lowest
    validation loss: every earlier epoch had a strictly higher loss, and no
    later epoch a lower one. *)
Theorem fit_keeps_best_epoch
  {W : Type} (K : Trainer.Keras W) (w : W) (args : Cli.Args)
  (X_train X_valid : list Data.paths) (y_train y_valid : list Data.cell)
  (d : Trainer.disk W) :
  Cli.save_best_only args = true ->
  (0 < Cli.nb_epoch args)%Z ->
  exists before w_best l_best after,
    Trainer.epoch_results K
      (Trainer.train_model_fit args X_train X_valid y_train y_valid)
      (Z.to_nat (Cli.nb_epoch args)) 0 w
    = (before ++ (w_best, l_best) :: after)%list /\
    Forall (fun r => (l_best < snd r)%Q) before /\
    Forall (fun r => (l_best <= snd r)%Q) after /\
    Trainer.contents
      (snd (Trainer.fit K
              (Trainer.train_model_fit args X_train X_valid y_train y_valid)
              w d)) "model.h5"
    = Some w_best.
Proof.
  intros Hbest Hepochs.
  unfold Trainer.fit.
  set (call := Trainer.train_model_fit args X_train X_valid y_train y_valid).
  change (Trainer.fit_callbacks call) with [Trainer.checkpoint args].
  change (Trainer.fit_epochs call) with (Cli.nb_epoch args).
  cbn [map].
  destruct (fit_loop_keeps_best K call (Trainer.checkpoint args)
              (Z.to_nat (Cli.nb_epoch args)) Hbest 0 None w d [] eq_refl)
    as (best' & Hkept).
  cbn [List.app] in Hkept.
  destruct best' as [l|]; cbn [Trainer.best_kept] in Hkept.
  - destruct Hkept as (before & w_best & after & E & Hb & Ha & Hfile).
    exists before, w_best, l, after. auto.
  - exfalso.
    destruct (Z.to_nat (Cli.nb_epoch args)) as [|n] eqn:En; [lia|].
    cbn [Trainer.epoch_results] in Hkept.
    destruct (Trainer.run_epoch K call 0 w). discriminate Hkept.
Qed.

Lemma fit_keeps_best_epoch_witness :
  exists before w_best l_best after,
    Trainer.epoch_results Examples.K0
      (Trainer.train_model_fit Examples.two_epochs [] [] [] [])
      (Z.to_nat (Cli.nb_epoch Examples.two_epochs)) 0 0%nat
    = (before ++ (w_best, l_best) :: after)%list /\
    Forall (fun r => (l_best < snd r)%Q) before /\
    Forall (fun r => (l_best <= snd r)%Q) after /\
    Trainer.contents
      (snd (Trainer.fit Examples.K0
              (Trainer.train_model_fit Examples.two_epochs [] [] [] [])
              0%nat Trainer.empty_disk)) "model.h5"
    = Some w_best.
Proof.
  apply (fit_keeps_best_epoch Examples.K0 0%nat Examples.two_epochs
           [] [] [] [] Trainer.empty_disk).
  - reflexivity.
  - reflexivity.
Defined.

(** X10: whatever the flag, [train_model] returns the weights of the last
    epoch (the weights it was given when there is no epoch), and these are
    what [model.h5] holds in the end. *)
Theorem train_model_ends_with_last_epoch
  {W : Type} (K : Trainer.Keras W) (w : W) (args : Cli.Args)
  (X_train X_valid : list Data.paths) (y_train y_valid : list Data.cell)
  (d : Trainer.disk W) :
  fst (Trainer.train_model K w args X_train X_valid y_train y_valid d)
  = last (map fst
            (Trainer.epoch_results K
               (Trainer.train_model_fit args X_train X_valid y_train y_valid)
               (Z.to_nat (Cli.nb_epoch args)) 0 w)) w /\
  Trainer.contents
    (snd (Trainer.train_model K w args X_train X_valid y_train y_valid d))
    "model.h5"
  = Some (last (map fst
                  (Trainer.epoch_results K
                     (Trainer.train_model_fit args X_train X_valid y_train
                        y_valid)
                     (Z.to_nat (Cli.nb_epoch args)) 0 w)) w).
Proof.
  unfold Trainer.train_model, Trainer.fit.
  set (call := Trainer.train_model_fit args X_train X_valid y_train y_valid).
  change (Trainer.fit_callbacks call) with [Trainer.checkpoint args].
  change (Trainer.fit_epochs call) with (Cli.nb_epoch args).
  cbn [map].
  pose proof (fit_loop_returns_last K call (Z.to_nat (Cli.nb_epoch args)) 0
                [(Trainer.checkpoint args, None)] w d) as Hlast.
  destruct (Trainer.fit_epochs_from K call (Z.to_nat (Cli.nb_epoch args)) 0
              [(Trainer.checkpoint args, None)] w d) as [w' d'].
  cbn [fst snd] in *. subst w'.
  split; [reflexivity | apply save_contents].
Qed.

(** X11: a run of [main] that returns has gone through all its steps, with
    a command line that parsed and data that loaded, and has left a
    [model.h5] behind. *)
Theorem finished_run_leaves_model
  {W : Type} (L : Data.Imports) (K : Trainer.Keras W) (fs : Data.file_system)
  (cl : Cli.command_line) (g : Data.rng_state L) (d d' : Trainer.disk W)
  (steps : list Trainer.step) :
  Trainer.main L K fs cl g d = (steps, Trainer.Returned d') ->
  steps = [Trainer.Parsed; Trainer.PrintedParameters; Trainer.LoadedData;
           Trainer.BuiltModel; Trainer.Trained] /\
  (exists args, Cli.parse_args cl = Cli.Namespace args /\
                Py.is_ok (Data.load_data L fs args g) = true) /\
  Trainer.contents d' "model.h5" <> None.
Proof.
  unfold Trainer.main. intros H.
  destruct (Cli.parse_args cl) as [args|f v] eqn:Hparse; [|discriminate].
  destruct (Data.load_data L fs args g)
    as [[[[[X_train X_valid] y_train] y_valid] g1]|e] eqn:Hload;
    [|discriminate].
  pose proof (train_model_saves_last_weights K
                (Trainer.initial_weights K (Trainer.build_model args)) args
                X_train X_valid y_train y_valid d) as Hfile.
  destruct (Trainer.train_model K _ args X_train X_valid y_train y_valid d)
    as [w1 d1].
  injection H as <- <-. cbn [snd] in Hfile.
  split; [reflexivity|]. split.
  - exists args. split; [reflexivity|]. now rewrite Hload.
  - rewrite Hfile. discriminate.
Qed.

Lemma finished_run_leaves_model_witness :
  [Trainer.Parsed; Trainer.PrintedParameters; Trainer.LoadedData;
   Trainer.BuiltModel; Trainer.Trained]
  = [Trainer.Parsed; Trainer.PrintedParameters; Trainer.LoadedData;
     Trainer.BuiltModel; Trainer.Trained] /\
  (exists args, Cli.parse_args [(Cli.Opt_n, "2")] = Cli.Namespace args /\
                Py.is_ok (Data.load_data Examples.L0 Examples.fs0 args
                            (Rng.seeded Rng.lcg 0)) = true) /\
  Trainer.contents
    (snd (Trainer.train_model Examples.K0 0%nat Examples.two_epochs
            [(Some "IMG/c2.jpg", Some "IMG/l2.jpg", Some "IMG/r2.jpg");
             (Some "IMG/c1.jpg", Some "IMG/l1.jpg", Some "IMG/r1.jpg")]
            [(Some "IMG/c3.jpg", Some "IMG/l3.jpg", Some "IMG/r3.jpg")]
            [Some "-0.3"; Some "0.1"] [Some "0"] Trainer.empty_disk))
    "model.h5" <> None.
Proof.
  apply (finished_run_leaves_model Examples.L0 Examples.K0 Examples.fs0
           [(Cli.Opt_n, "2")] (Rng.seeded Rng.lcg 0) Trainer.empty_disk).
  reflexivity.
Defined.

(** ** The network *)

Section ModelFacts.
Import Trainer.

Lemma window_fits (size stride n : nat) :
  (size <= n)%nat ->
  window size stride n = Some ((n - size) / stride + 1)%nat.
Proof.
  intros H. unfold window.
  destruct (n <? size)%nat eqn:E; [|reflexivity].
  apply Nat.ltb_lt in E. lia.
Qed.

Lemma stages_fit (n : nat) :
  (21 <= n)%nat ->
  (3 <= n /\ 2 <= (n - 3) / 2 + 1 /\
   3 <= ((n - 3) / 2 + 1 - 2) / 2 + 1 /\
   2 <= (((n - 3) / 2 + 1 - 2) / 2 + 1 - 3) / 2 + 1)%nat.
Proof.
  intros H.
  assert (10 <= (n - 3) / 2 + 1)%nat as H1.
  { pose proof (Nat.Div0.div_le_mono 18 (n - 3) 2) as Hd.
    change (18 / 2)%nat with 9%nat in Hd. lia. }
  assert (5 <= ((n - 3) / 2 + 1 - 2) / 2 + 1)%nat as H2.
  { pose proof (Nat.Div0.div_le_mono 8 ((n - 3) / 2 + 1 - 2) 2) as Hd.
    change (8 / 2)%nat with 4%nat in Hd. lia. }
  assert (2 <= (((n - 3) / 2 + 1 - 2) / 2 + 1 - 3) / 2 + 1)%nat as H3.
  { pose proof (Nat.Div0.div_le_mono 2
                  (((n - 3) / 2 + 1 - 2) / 2 + 1 - 3) 2) as Hd.
    change (2 / 2)%nat with 1%nat in Hd. lia. }
  lia.
Qed.

End ModelFacts.

(** X12: on an input of at least 121 lines and 41 columns, with any number
    of channels, the layers of [build_model] fit together: the [Flatten]
    layer hands [stages (h - 100) * stages (w - 20) * 36] features to the
    dense layers, and the network's output is a single number. *)
Theorem build_model_maps_image_to_one_number
  (args : Cli.Args) (h w c : nat) :
  (121 <= h)%nat -> (41 <= w)%nat ->
  Trainer.model_shape (firstn 7 (Trainer.build_model args))
    (Trainer.Image h w c)
  = Some (Trainer.Flat
            (Trainer.stages (h - 100) * Trainer.stages (w - 20) * 36)) /\
  Trainer.model_shape (Trainer.build_model args) (Trainer.Image h w c)
  = Some (Trainer.Flat 1).
Proof.
  intros Hh Hw.
  destruct (stages_fit (h - 100)) as (Hh0 & Hh1 & Hh2 & Hh3); [lia|].
  destruct (stages_fit (w - 20)) as (Hw0 & Hw1 & Hw2 & Hw3); [lia|].
  assert ((75 + 25 <? h)%nat = true) as Eh by (apply Nat.ltb_lt; lia).
  assert ((10 + 10 <? w)%nat = true) as Ew by (apply Nat.ltb_lt; lia).
  unfold Trainer.build_model, Trainer.stages.
  cbn [firstn Trainer.model_shape Trainer.layer_shape].
  rewrite Eh, Ew. cbn [andb Trainer.model_shape Trainer.layer_shape].
  replace (h - 75 - 25)%nat with (h - 100)%nat by lia.
  replace (w - 10 - 10)%nat with (w - 20)%nat by lia.
  rewrite (window_fits 3 2 (h - 100) Hh0), (window_fits 3 2 (w - 20) Hw0).
  cbn [Trainer.model_shape Trainer.layer_shape].
  rewrite (window_fits 2 2 _ Hh1), (window_fits 2 2 _ Hw1).
  cbn [Trainer.model_shape Trainer.layer_shape].
  rewrite (window_fits 3 2 _ Hh2), (window_fits 3 2 _ Hw2).
  cbn [Trainer.model_shape Trainer.layer_shape].
  rewrite (window_fits 2 2 _ Hh3), (window_fits 2 2 _ Hw3).
  cbn [Trainer.model_shape Trainer.layer_shape].
  split; reflexivity.
Qed.

Lemma build_model_maps_image_to_one_number_witness :
  Trainer.model_shape (firstn 7 (Trainer.build_model Cli.defaults))
    (Trainer.Image 160 320 3)
  = Some (Trainer.Flat
            (Trainer.stages (160 - 100) * Trainer.stages (320 - 20) * 36)) /\
  Trainer.model_shape (Trainer.build_model Cli.defaults)
    (Trainer.Image 160 320 3)
  = Some (Trainer.Flat 1).
Proof.
  apply (build_model_maps_image_to_one_number Cli.defaults 160 320 3); lia.
Defined.
